(** * Call tracker: a shallow embedding of [vocode/streaming/utils/call_tracker.py]

    The tracker keeps one Python dict per conversation id inside the dict
    [_call_sessions].  Both levels are modelled as finite maps with string
    keys.  The operations read the system clock, mutate the registry in
    place, write log records and may (in principle) raise; they are embedded
    in a small state-and-exception monad whose state survives a raise, as a
    Python object does. *)

From stdpp Require Import gmap strings list fin_maps.
From Stdlib Require Import ZArith Lia.

Open Scope string_scope.
Open Scope Z_scope.
Open Scope list_scope.

Set Warnings "-clear-no-such-hyp".

(** ** Values stored in a session dict *)

(** A reading of [datetime.now()]; only ever stored, copied and formatted. *)
Definition datetime := Z.

(** The Python values the tracker puts into a session.  A [float] produced by
    [time.time()] or by a subtraction of two such readings is an exact number
    here; rounding is outside the model. *)
Inductive value :=
| VNone
| VBool (b : bool)
| VFloat (x : Z)
| VStr (s : string)
| VDatetime (d : datetime).

#[global] Instance value_eq_dec : EqDecision value.
Proof. solve_decision. Defined.

(** Python truthiness, as used by [if], [and] and conditional expressions. *)
Definition truthy (v : value) : bool :=
  match v with
  | VNone => false
  | VBool b => b
  | VFloat x => negb (x =? 0)
  | VStr s => negb (String.eqb s "")
  | VDatetime _ => true
  end.

(** [v is None] *)
Definition is_none (v : value) : bool :=
  match v with VNone => true | _ => false end.

(** ** Log records *)

Inductive level := INFO | WARNING.

(** The payload of each log line of the module.  The text layout (emoji,
    separators, [strftime] pattern, two decimals) is fixed by the source; the
    model keeps the values that are interpolated.  The minutes figure of the
    summary line is [total_duration/60] of the same [total_duration]. *)
Inductive message :=
| CallStarted (conversation_id from_phone to_phone : string) (start : datetime)
| AgentStartNotFound (conversation_id : string)
| AgentStarted (conversation_id : string) (agent_start : datetime)
    (call_setup_duration : Z)
| EndNotFound (conversation_id : string)
| CallEnded (conversation_id : string) (from_phone to_phone : value)
    (start end_ : datetime) (total_duration : Z) (agent_duration : option Z).

(** ** The tracker and the logger *)

Record world := World {
  _call_sessions : gmap string (gmap string value);
  log : list (level * message)
}.

Definition init : world := World ∅ [].

(** The two clock readings an operation may take. *)
Record clock := Clock { time_time : Z; datetime_now : datetime }.

(** ** The monad *)

Inductive exn := KeyError (key : string) | TypeError | AttributeError.

Inductive outcome (A : Type) :=
| Done (a : A) (w : world)
| Raised (e : exn) (w : world).
Arguments Done {A} a w.
Arguments Raised {A} e w.

Definition M (A : Type) : Type := world → outcome A.

#[global] Instance M_ret : MRet M := λ A a w, Done a w.
#[global] Instance M_bind : MBind M := λ A B f m w,
  match m w with
  | Done a w' => f a w'
  | Raised e w' => Raised e w'
  end.
#[global] Instance M_fmap : FMap M := λ A B f m, a ← m; mret (f a).

Definition raise {A} (e : exn) : M A := λ w, Raised e w.

(** *** Primitive statements *)

(** [conversation_id in self._call_sessions] *)
Definition sessions_mem (conversation_id : string) : M bool :=
  λ w, Done (bool_decide (is_Some (_call_sessions w !! conversation_id))) w.

(** [self._call_sessions[conversation_id]] *)
Definition sessions_get (conversation_id : string) : M (gmap string value) :=
  λ w, match _call_sessions w !! conversation_id with
       | Some session => Done session w
       | None => Raised (KeyError conversation_id) w
       end.

(** [self._call_sessions[conversation_id] = session] *)
Definition sessions_set (conversation_id : string) (session : gmap string value)
  : M unit :=
  λ w, Done tt (World (<[conversation_id := session]> (_call_sessions w)) (log w)).

(** [self._call_sessions.pop(conversation_id)] *)
Definition sessions_pop (conversation_id : string) : M (gmap string value) :=
  λ w, match _call_sessions w !! conversation_id with
       | Some session =>
           Done session (World (delete conversation_id (_call_sessions w)) (log w))
       | None => Raised (KeyError conversation_id) w
       end.

(** [d[key]] on a dict already at hand (a copy). *)
Definition getitem (d : gmap string value) (key : string) : M value :=
  match d !! key with
  | Some v => mret v
  | None => raise (KeyError key)
  end.

(** [session[key]] where [session] is the dict stored under
    [conversation_id]: the local name aliases the stored object, so the
    read goes through the registry. *)
Definition getfield (conversation_id key : string) : M value :=
  session ← sessions_get conversation_id; getitem session key.

(** [session[key] = v] on the stored dict: an in-place update, visible through
    the registry. *)
Definition setfield (conversation_id key : string) (v : value) : M unit :=
  session ← sessions_get conversation_id;
  sessions_set conversation_id (<[key := v]> session).

(** [a - b].  The tracker only ever subtracts clock readings; any other
    operand is a [TypeError] here (Python would coerce a [bool], which the
    tracker never passes, see [wf_session]). *)
Definition sub (a b : value) : M value :=
  match a, b with
  | VFloat x, VFloat y => mret (VFloat (x - y))
  | _, _ => raise TypeError
  end.

(** [v.strftime('%Y-%m-%d %H:%M:%S')] *)
Definition strftime (v : value) : M datetime :=
  match v with
  | VDatetime d => mret d
  | _ => raise AttributeError
  end.

(** [f"{v:.2f}"] *)
Definition format_2f (v : value) : M Z :=
  match v with
  | VFloat x => mret x
  | _ => raise TypeError
  end.

Definition logger_info (msg : message) : M unit :=
  λ w, Done tt (World (_call_sessions w) (log w ++ [(INFO, msg)])).

Definition logger_warning (msg : message) : M unit :=
  λ w, Done tt (World (_call_sessions w) (log w ++ [(WARNING, msg)])).

(** ** The methods of [CallTracker] *)

(** The dict literal of [start_call_tracking]. *)
Definition new_session (start_time : Z) (start_datetime : datetime)
    (to_phone from_phone : string) : gmap string value :=
  <["start_time" := VFloat start_time]>
  (<["start_datetime" := VDatetime start_datetime]>
  (<["to_phone" := VStr to_phone]>
  (<["from_phone" := VStr from_phone]>
  (<["agent_started" := VBool false]>
  (<["agent_start_time" := VNone]>
  (<["end_time" := VNone]>
  (<["end_datetime" := VNone]>
  (<["duration" := VNone]> ∅)))))))).

Definition start_call_tracking (clk : clock)
    (conversation_id to_phone from_phone : string) : M unit :=
  let start_time := time_time clk in
  let start_datetime := datetime_now clk in
  sessions_set conversation_id
    (new_session start_time start_datetime to_phone from_phone);;
  logger_info (CallStarted conversation_id from_phone to_phone start_datetime).

Definition mark_agent_started (clk : clock) (conversation_id : string) : M unit :=
  present ← sessions_mem conversation_id;
  if negb present then
    logger_warning (AgentStartNotFound conversation_id)
  else
    let agent_start_time := time_time clk in
    let agent_start_datetime := datetime_now clk in
    setfield conversation_id "agent_started" (VBool true);;
    setfield conversation_id "agent_start_time" (VFloat agent_start_time);;
    start_time ← getfield conversation_id "start_time";
    call_setup_duration ← sub (VFloat agent_start_time) start_time;
    shown ← format_2f call_setup_duration;
    logger_info (AgentStarted conversation_id agent_start_datetime shown).

Definition end_call_tracking (clk : clock) (conversation_id : string)
  : M (option (gmap string value)) :=
  present ← sessions_mem conversation_id;
  if negb present then
    logger_warning (EndNotFound conversation_id);;
    mret None
  else
    let end_time := time_time clk in
    let end_datetime := datetime_now clk in
    setfield conversation_id "end_time" (VFloat end_time);;
    setfield conversation_id "end_datetime" (VDatetime end_datetime);;
    start_time ← getfield conversation_id "start_time";
    duration ← sub (VFloat end_time) start_time;
    setfield conversation_id "duration" duration;;
    total_duration ← getfield conversation_id "duration";
    agent_started ← getfield conversation_id "agent_started";
    agent_duration ←
      (if truthy agent_started then
         agent_start_time ← getfield conversation_id "agent_start_time";
         if truthy agent_start_time
         then sub (VFloat end_time) agent_start_time
         else mret VNone
       else mret VNone);
    from_phone ← getfield conversation_id "from_phone";
    to_phone ← getfield conversation_id "to_phone";
    start_datetime ← getfield conversation_id "start_datetime";
    start_shown ← strftime start_datetime;
    total_shown ← format_2f total_duration;
    agent_shown ←
      (if truthy agent_duration
       then Some <$> format_2f agent_duration
       else mret None);
    logger_info (CallEnded conversation_id from_phone to_phone
                   start_shown end_datetime total_shown agent_shown);;
    call_data ← sessions_pop conversation_id;
    mret (Some call_data).

Definition get_call_status (clk : clock) (conversation_id : string)
  : M (option (gmap string value)) :=
  present ← sessions_mem conversation_id;
  if negb present then mret None
  else
    session ← sessions_get conversation_id;
    end_time ← getitem session "end_time";
    if is_none end_time then
      let current_time := time_time clk in
      start_time ← getitem session "start_time";
      current_duration ← sub (VFloat current_time) start_time;
      mret (Some (<["current_duration" := current_duration]> session))
    else mret (Some session).

(** The body of the [for] loop of [get_active_calls], over the items still to
    be visited. *)
Fixpoint active_loop (current_time : Z)
    (items : list (string * gmap string value))
    (active_calls : gmap string (gmap string value))
  : M (gmap string (gmap string value)) :=
  match items with
  | [] => mret active_calls
  | (conv_id, session) :: rest =>
      end_time ← getitem session "end_time";
      if is_none end_time then
        start_time ← getitem session "start_time";
        current_duration ← sub (VFloat current_time) start_time;
        active_loop current_time rest
          (<[conv_id := <["current_duration" := current_duration]> session]>
             active_calls)
      else active_loop current_time rest active_calls
  end.

Definition get_active_calls (clk : clock)
  : M (gmap string (gmap string value)) :=
  let current_time := time_time clk in
  λ w, active_loop current_time (map_to_list (_call_sessions w)) ∅ w.

(** ** Call sequences *)

(** One call on the shared tracker, with the clock readings it observes. *)
Inductive op :=
| Begin (clk : clock) (conversation_id to_phone from_phone : string)
| MarkAgentStarted (clk : clock) (conversation_id : string)
| End (clk : clock) (conversation_id : string)
| GetStatus (clk : clock) (conversation_id : string)
| GetActiveCalls (clk : clock).

Definition run_op (o : op) : M unit :=
  match o with
  | Begin clk i t f => start_call_tracking clk i t f
  | MarkAgentStarted clk i => mark_agent_started clk i
  | End clk i => _ ← end_call_tracking clk i; mret tt
  | GetStatus clk i => _ ← get_call_status clk i; mret tt
  | GetActiveCalls clk => _ ← get_active_calls clk; mret tt
  end.

(** The calls of a sequence in order; an exception ends the sequence. *)
Fixpoint run (tr : list op) : M unit :=
  match tr with
  | [] => mret tt
  | o :: rest => run_op o;; run rest
  end.

(** The worlds the module can be in: [call_tracker = CallTracker()] followed
    by any calls. *)
Definition reachable (w : world) : Prop := ∃ tr, run tr init = Done tt w.

Definition is_begin (i : string) (o : op) : bool :=
  match o with Begin _ j _ _ => bool_decide (j = i) | _ => false end.

Definition is_mark (i : string) (o : op) : bool :=
  match o with MarkAgentStarted _ j => bool_decide (j = i) | _ => false end.

Definition is_end (i : string) (o : op) : bool :=
  match o with End _ j => bool_decide (j = i) | _ => false end.

(** ** Session shapes *)

(** What every stored session looks like (shown below for all reachable
    worlds): the fields written by [start_call_tracking] keep their types,
    the call has not ended, and the two agent fields change together. *)
Definition wf_session (s : gmap string value) : Prop :=
  (∃ t, s !! "start_time" = Some (VFloat t)) ∧
  (∃ d, s !! "start_datetime" = Some (VDatetime d)) ∧
  (∃ p, s !! "to_phone" = Some (VStr p)) ∧
  (∃ p, s !! "from_phone" = Some (VStr p)) ∧
  s !! "end_time" = Some VNone ∧
  ((s !! "agent_started" = Some (VBool false) ∧
    s !! "agent_start_time" = Some VNone) ∨
   (s !! "agent_started" = Some (VBool true) ∧
    ∃ t, s !! "agent_start_time" = Some (VFloat t))).

Definition wf_world (w : world) : Prop :=
  map_Forall (λ _ s, wf_session s) (_call_sessions w).

(** The session after [mark_agent_started] at time [t]. *)
Definition marked (t : Z) (s : gmap string value) : gmap string value :=
  <["agent_start_time" := VFloat t]> (<["agent_started" := VBool true]> s).

(** The session after the three assignments of [end_call_tracking]. *)
Definition ended (clk : clock) (start_time : Z) (s : gmap string value)
  : gmap string value :=
  <["duration" := VFloat (time_time clk - start_time)]>
  (<["end_datetime" := VDatetime (datetime_now clk)]>
  (<["end_time" := VFloat (time_time clk)]> s)).

(** The agent figure of the summary line: present when the agent start was
    recorded and both it and the difference are truthy. *)
Definition agent_shown (end_time : Z) (agent_started agent_start_time : value)
  : option Z :=
  if truthy agent_started then
    match agent_start_time with
    | VFloat a =>
        if truthy (VFloat a) && truthy (VFloat (end_time - a))
        then Some (end_time - a) else None
    | _ => None
    end
  else None.

(** A field of a session, for statements ([None] when the key is missing). *)
Definition field (s : gmap string value) (key : string) : value :=
  default VNone (s !! key).

Definition datetime_of (v : value) : datetime :=
  match v with VDatetime d => d | _ => 0 end.

(** The start time a session carries. *)
Definition start_of (s : gmap string value) : Z :=
  match s !! "start_time" with Some (VFloat t) => t | _ => 0 end.

(** The copy of a session handed out by the two queries. *)
Definition view (current_time : Z) (s : gmap string value) : gmap string value :=
  <["current_duration" := VFloat (current_time - start_of s)]> s.

(** One step of the bookkeeping of open ids: a [Begin] adds its id, an [End]
    removes it. *)
Definition open_step (acc : gset string) (o : op) : gset string :=
  match o with
  | Begin _ i _ _ => {[i]} ∪ acc
  | End _ i => acc ∖ {[i]}
  | _ => acc
  end.

(** The ids for which a [Begin] is not followed by an [End], computed along
    the sequence. *)
Definition open_ids (tr : list op) : gset string := foldl open_step ∅ tr.

(** The registry after a call, as a map transformer. *)
Definition sessions_after (o : op) (m : gmap string (gmap string value))
  : gmap string (gmap string value) :=
  match o with
  | Begin clk i t f => <[i := new_session (time_time clk) (datetime_now clk) t f]> m
  | MarkAgentStarted clk i => alter (marked (time_time clk)) i m
  | End _ i => delete i m
  | GetStatus _ _ | GetActiveCalls _ => m
  end.

(** ** Calls that leave a session alone *)

(** [o] neither creates nor ends the session [i]. *)
Definition keeps (i : string) (o : op) : bool :=
  negb (is_begin i o) && negb (is_end i o).

(** [o] is a query or works on another session. *)
Definition foreign (i : string) (o : op) : bool :=
  keeps i o && negb (is_mark i o).

(** Two sessions that differ at most in the two agent fields. *)
Definition same_call (s s' : gmap string value) : Prop :=
  ∀ k, k ≠ "agent_started" → k ≠ "agent_start_time" → s' !! k = s !! k.

(** The registry after a whole sequence. *)
Definition sessions_run (tr : list op) (m : gmap string (gmap string value))
  : gmap string (gmap string value) :=
  foldl (λ m o, sessions_after o m) m tr.

(** No [End] for [i] occurs in [tr]. *)
Definition no_end_of (i : string) (tr : list op) : bool :=
  forallb (λ o, negb (is_end i o)) tr.

(** In [tr], some [Begin] for [i] is followed by no [End] for [i]. *)
Definition begun_not_ended (i : string) (tr : list op) : Prop :=
  ∃ pre o post,
    tr = pre ++ o :: post ∧ is_begin i o = true ∧ no_end_of i post = true.

(** ** A sample world

    The tracker after [start_call_tracking("c1", "+1555", "+1777")] at clock
    reading 100, used to instantiate the statements below. *)

Definition sample_session : gmap string value :=
  new_session 100 1100 "+1555" "+1777".

Definition sample_world : world :=
  World (<["c1" := sample_session]> ∅)
    [(INFO, CallStarted "c1" "+1777" "+1555" 1100)].

(** ** Further notions used in the statements *)

(** The world an outcome leaves behind, raised or not. *)
Definition world_of {A} (o : outcome A) : world :=
  match o with Done _ w => w | Raised _ w => w end.

(** The calls that write a log record: all but the two queries. *)
Definition logs (o : op) : bool :=
  match o with
  | Begin _ _ _ _ | MarkAgentStarted _ _ | End _ _ => true
  | GetStatus _ _ | GetActiveCalls _ => false
  end.

(** The clock reading of the last [MarkAgentStarted] for [i] in [tr]. *)
Definition last_mark (i : string) (tr : list op) : option Z :=
  foldl (λ acc o,
           match o with
           | MarkAgentStarted clk j =>
               if bool_decide (j = i) then Some (time_time clk) else acc
           | _ => acc
           end) None tr.

(** The keys of the dict literal of [start_call_tracking]. *)
Definition session_keys : gset string :=
  list_to_set ["start_time"; "start_datetime"; "to_phone"; "from_phone";
               "agent_started"; "agent_start_time"; "end_time";
               "end_datetime"; "duration"].

(** The record with the agent mark [acc], if any, applied. *)
Definition with_mark (acc : option Z) (s : gmap string value)
  : gmap string value :=
  match acc with Some t => marked t s | None => s end.

(** One step of [last_mark]. *)
Definition mark_step (i : string) (acc : option Z) (o : op) : option Z :=
  match o with
  | MarkAgentStarted clk j =>
      if bool_decide (j = i) then Some (time_time clk) else acc
  | _ => acc
  end.

(** The reading of [time.time()] a call takes. *)
Definition op_time (o : op) : Z :=
  match o with
  | Begin clk _ _ _ | MarkAgentStarted clk _ | End clk _
  | GetStatus clk _ | GetActiveCalls clk => time_time clk
  end.

(** The readings along [tr] never fall below [t] nor below an earlier
    reading: the system clock is not set back during the sequence. *)
Fixpoint clock_nondecreasing (t : Z) (tr : list op) : bool :=
  match tr with
  | [] => true
  | o :: rest => (t <=? op_time o) && clock_nondecreasing (op_time o) rest
  end.

(** The last reading of [tr], or [t] when there is none. *)
Definition last_time (t : Z) (tr : list op) : Z :=
  foldl (λ _ o, op_time o) t tr.

(** Every stored session started by [t] and, when marked, was marked between
    its start and [t]. *)
Definition timed (t : Z) (m : gmap string (gmap string value)) : Prop :=
  map_Forall (λ _ s,
                start_of s ≤ t
                ∧ ∀ a, s !! "agent_start_time" = Some (VFloat a) →
                       start_of s ≤ a ≤ t) m.

(** ** [examples/call_tracking_example.py]: [check_active_calls]

    The function prints to standard output; here the lines printed are the
    value returned (should a lookup raise, the lines printed before it are
    not represented).  The blocks of the calls come in the iteration order of
    the dict returned by [get_active_calls], which the finite map does not
    record; the statements about the output do not depend on that order. *)

(** One printed line, by the values interpolated into it. *)
Inductive printed :=
| ActiveCount (n : nat)
| CallHeader (conv_id : string)
| CallFrom (from_phone : value)
| CallTo (to_phone : value)
| CallDuration (current_duration : Z)
| CallAgentStarted (agent_started : value).

(** The body of the [for] loop, over the items still to be visited. *)
Fixpoint print_calls (items : list (string * gmap string value))
  : M (list printed) :=
  match items with
  | [] => mret []
  | (conv_id, call_data) :: rest =>
      from_phone ← getitem call_data "from_phone";
      to_phone ← getitem call_data "to_phone";
      current_duration ← getitem call_data "current_duration";
      shown ← format_2f current_duration;
      agent_started ← getitem call_data "agent_started";
      more ← print_calls rest;
      mret ([CallHeader conv_id; CallFrom from_phone; CallTo to_phone;
             CallDuration shown; CallAgentStarted agent_started] ++ more)
  end.

Definition check_active_calls (clk : clock) : M (list printed) :=
  active_calls ← get_active_calls clk;
  body ← print_calls (map_to_list active_calls);
  mret (ActiveCount (size active_calls) :: body).

(** The five lines printed for the stored session [s] of [conv_id] at clock
    reading [t]. *)
Definition call_block (t : Z) (conv_id : string) (s : gmap string value)
  : list printed :=
  [CallHeader conv_id; CallFrom (field s "from_phone");
   CallTo (field s "to_phone"); CallDuration (t - start_of s);
   CallAgentStarted (field s "agent_started")].

(** ** Proof steps *)

(** Unfold the monad and the primitive statements. *)
Ltac run_m :=
  repeat (progress (unfold sessions_mem, sessions_get, sessions_set,
                      sessions_pop, getfield, setfield, getitem,
                      logger_info, logger_warning, sub, format_2f, strftime,
                      raise, fmap, M_fmap, mbind, M_bind, mret, M_ret;
                    cbn beta iota delta [negb _call_sessions log]));
  cbn beta iota delta [negb _call_sessions log].

(** Read a key of a dict built by assignments. *)
Ltac look :=
  repeat first [ rewrite lookup_insert_eq
               | rewrite lookup_insert_ne by done ].

(** * Properties *)

(** ** Running the monad *)

Lemma mem_true (m : gmap string (gmap string value)) i s :
  m !! i = Some s → bool_decide (is_Some (m !! i)) = true.
Proof. intros H. apply bool_decide_eq_true. eauto. Qed.

Lemma mem_false (m : gmap string (gmap string value)) i :
  m !! i = None → bool_decide (is_Some (m !! i)) = false.
Proof. intros H. apply bool_decide_eq_false. rewrite H. by intros [? ?]. Qed.

Lemma mark_agent_started_absent clk i w :
  _call_sessions w !! i = None →
  mark_agent_started clk i w
  = Done tt (World (_call_sessions w)
               (log w ++ [(WARNING, AgentStartNotFound i)])).
Proof.
  intros H. unfold mark_agent_started. run_m.
  by rewrite (mem_false _ _ H).
Qed.

Lemma mark_agent_started_live clk i w s st :
  _call_sessions w !! i = Some s →
  s !! "start_time" = Some (VFloat st) →
  mark_agent_started clk i w
  = Done tt (World (<[i := marked (time_time clk) s]> (_call_sessions w))
               (log w ++ [(INFO, AgentStarted i (datetime_now clk)
                                   (time_time clk - st))])).
Proof.
  intros H Hst. unfold mark_agent_started. run_m.
  rewrite (mem_true _ _ _ H). run_m. rewrite H. run_m.
  rewrite lookup_insert_eq. run_m. rewrite lookup_insert_eq. run_m.
  rewrite !lookup_insert_ne by done. rewrite Hst. run_m.
  by rewrite insert_insert_eq.
Qed.

Lemma start_call_tracking_spec clk i t f w :
  start_call_tracking clk i t f w
  = Done tt (World (<[i := new_session (time_time clk) (datetime_now clk) t f]>
                      (_call_sessions w))
               (log w ++ [(INFO, CallStarted i f t (datetime_now clk))])).
Proof. reflexivity. Qed.

Lemma end_call_tracking_absent clk i w :
  _call_sessions w !! i = None →
  end_call_tracking clk i w
  = Done None (World (_call_sessions w) (log w ++ [(WARNING, EndNotFound i)])).
Proof.
  intros H. unfold end_call_tracking. run_m.
  by rewrite (mem_false _ _ H).
Qed.

Lemma end_call_tracking_live clk i w s :
  _call_sessions w !! i = Some s →
  wf_session s →
  end_call_tracking clk i w
  = Done (Some (ended clk (start_of s) s))
      (World (delete i (_call_sessions w))
         (log w ++
          [(INFO, CallEnded i (field s "from_phone") (field s "to_phone")
                    (datetime_of (field s "start_datetime")) (datetime_now clk)
                    (time_time clk - start_of s)
                    (agent_shown (time_time clk) (field s "agent_started")
                       (field s "agent_start_time")))])).
Proof.
  intros H ([st Hst] & [sd Hsd] & [tp Htp] & [fp Hfp] & Hend & Hag).
  unfold end_call_tracking, ended, start_of, field, agent_shown. run_m.
  rewrite (mem_true _ _ _ H). run_m. rewrite H. run_m.
  destruct Hag as [[Ha1 Ha2] | [Ha1 [ta Ha2]]];
    repeat (look; rewrite ?Hst, ?Hsd, ?Htp, ?Hfp, ?Hend, ?Ha1, ?Ha2; run_m;
            cbn [truthy default datetime_of]).
  - simpl. by rewrite !delete_insert_eq.
  - destruct (ta =? 0) eqn:E1; cbn [negb];
      repeat (look; rewrite ?Hst, ?Hsd, ?Htp, ?Hfp; run_m; cbn [truthy]).
    + simpl. by rewrite E1, !delete_insert_eq.
    + destruct (time_time clk - ta =? 0) eqn:E2; cbn [negb];
        repeat (look; rewrite ?Hst, ?Hsd, ?Htp, ?Hfp; run_m; cbn [truthy]);
        simpl; by rewrite E1, E2, !delete_insert_eq.
Qed.

Lemma get_call_status_absent clk i w :
  _call_sessions w !! i = None →
  get_call_status clk i w = Done None w.
Proof.
  intros H. unfold get_call_status. run_m. by rewrite (mem_false _ _ H).
Qed.

Lemma get_call_status_live clk i w s :
  _call_sessions w !! i = Some s →
  wf_session s →
  get_call_status clk i w = Done (Some (view (time_time clk) s)) w.
Proof.
  intros H ([st Hst] & _ & _ & _ & Hend & _).
  unfold get_call_status, view, start_of. run_m.
  rewrite (mem_true _ _ _ H). run_m. by rewrite H, Hend, Hst.
Qed.

(** The loop on sessions that are all well formed: no item is skipped and
    nothing is raised. *)
Lemma active_loop_wf t items acc w :
  Forall (λ p, wf_session p.2) items →
  active_loop t items acc w
  = Done (foldl (λ a p, <[p.1 := view t p.2]> a) acc items) w.
Proof.
  intros Hall. revert acc.
  induction Hall as [|[k s] items ([st Hst] & _ & _ & _ & Hend & _) _ IH];
    intros acc; [done|].
  cbn [active_loop foldl fst snd]. run_m. cbn [snd] in *.
  rewrite Hend. cbn [is_none]. rewrite Hst. run_m.
  rewrite IH. unfold view, start_of. by rewrite Hst.
Qed.

Lemma foldl_insert_lookup {A B} (g : A → B) (items : list (string * A))
    (acc : gmap string B) k :
  NoDup items.*1 →
  foldl (λ a p, <[p.1 := g p.2]> a) acc items !! k
  = match (list_to_map items : gmap string A) !! k with
    | Some s => Some (g s)
    | None => acc !! k
    end.
Proof.
  revert acc. induction items as [|[k0 s0] items IH]; intros acc Hnd; [done|].
  apply NoDup_cons in Hnd as [Hk0 Hnd].
  cbn [foldl fst snd list_to_map foldr uncurry]. rewrite IH by done.
  destruct (decide (k0 = k)) as [->|Hne].
  - rewrite lookup_insert_eq.
    rewrite (not_elem_of_list_to_map_1 _ _ Hk0).
    by rewrite lookup_insert_eq.
  - rewrite !(lookup_insert_ne _ k0 k) by done. done.
Qed.

Lemma get_active_calls_wf clk w :
  wf_world w →
  get_active_calls clk w
  = Done (view (time_time clk) <$> _call_sessions w) w.
Proof.
  intros Hwf. unfold get_active_calls.
  rewrite active_loop_wf.
  - f_equal. apply map_eq. intros k.
    rewrite foldl_insert_lookup by apply NoDup_fst_map_to_list.
    rewrite list_to_map_to_list, lookup_fmap.
    by destruct (_call_sessions w !! k).
  - apply Forall_forall. intros [k s] Hin.
    apply elem_of_map_to_list in Hin. by apply (Hwf k s).
Qed.

(** ** Well-formed sessions are preserved *)

Lemma wf_new_session t d tp fp : wf_session (new_session t d tp fp).
Proof.
  unfold wf_session, new_session. repeat split; eauto.
Qed.

Lemma wf_marked t s : wf_session s → wf_session (marked t s).
Proof.
  intros (Hst & Hsd & Htp & Hfp & Hend & _). unfold wf_session, marked.
  look. repeat split; eauto.
Qed.

Lemma wf_init : wf_world init.
Proof. apply map_Forall_empty. Qed.

(** On a well-formed world no call raises, the registry changes as
    [sessions_after] says, and the world stays well formed. *)
Lemma run_op_wf o w :
  wf_world w →
  ∃ w', run_op o w = Done tt w'
        ∧ _call_sessions w' = sessions_after o (_call_sessions w)
        ∧ wf_world w'.
Proof.
  intros Hwf. destruct o as [clk i tp fp|clk i|clk i|clk i|clk];
    cbn [run_op sessions_after].
  - eexists. rewrite start_call_tracking_spec. split; [done|]. split; [done|].
    apply map_Forall_insert_2; [apply wf_new_session | done].
  - destruct (_call_sessions w !! i) as [s|] eqn:Hi.
    + destruct (Hwf i s Hi) as ([st Hst] & Hrest).
      eexists. rewrite (mark_agent_started_live _ _ _ _ _ Hi Hst).
      split; [done|]. cbn [_call_sessions].
      rewrite (alter_alt_Some _ _ _ _ Hi). split; [done|].
      apply map_Forall_insert_2; [|done].
      apply wf_marked, (Hwf i s Hi).
    + eexists. rewrite (mark_agent_started_absent _ _ _ Hi).
      split; [done|]. cbn [_call_sessions].
      rewrite alter_alt, Hi. done.
  - destruct (_call_sessions w !! i) as [s|] eqn:Hi.
    + eexists. run_m.
      rewrite (end_call_tracking_live _ _ _ _ Hi (Hwf i s Hi)).
      split; [done|]. split; [done|]. by apply map_Forall_delete.
    + eexists. run_m. rewrite (end_call_tracking_absent _ _ _ Hi).
      split; [done|]. cbn [_call_sessions]. by rewrite (delete_id _ _ Hi).
  - exists w. run_m. destruct (_call_sessions w !! i) as [s|] eqn:Hi.
    + by rewrite (get_call_status_live _ _ _ _ Hi (Hwf i s Hi)).
    + by rewrite (get_call_status_absent _ _ _ Hi).
  - exists w. run_m. by rewrite (get_active_calls_wf _ _ Hwf).
Qed.

Lemma run_cons o tr w :
  run (o :: tr) w
  = match run_op o w with
    | Done _ w' => run tr w'
    | Raised e w' => Raised e w'
    end.
Proof. reflexivity. Qed.

Lemma run_app tr1 tr2 w :
  run (tr1 ++ tr2) w
  = match run tr1 w with
    | Done _ w' => run tr2 w'
    | Raised e w' => Raised e w'
    end.
Proof.
  revert w. induction tr1 as [|o tr1 IH]; intros w; [done|].
  rewrite <- app_comm_cons, !run_cons. destruct (run_op o w); [apply IH|done].
Qed.

Lemma run_wf tr w :
  wf_world w →
  ∃ w', run tr w = Done tt w'
        ∧ _call_sessions w' = sessions_run tr (_call_sessions w)
        ∧ wf_world w'.
Proof.
  revert w. induction tr as [|o tr IH]; intros w Hwf.
  - by exists w.
  - destruct (run_op_wf o w Hwf) as (w1 & H1 & Hs1 & Hwf1).
    destruct (IH w1 Hwf1) as (w2 & H2 & Hs2 & Hwf2).
    exists w2. rewrite run_cons, H1, H2. split; [done|]. split; [|done].
    rewrite Hs2, Hs1. done.
Qed.

Lemma reachable_wf w : reachable w → wf_world w.
Proof.
  intros [tr Htr]. destruct (run_wf tr init wf_init) as (w' & H & _ & Hwf).
  rewrite Htr in H. by injection H as ->.
Qed.

Lemma reachable_init : reachable init.
Proof. by exists []. Qed.

(** ** Calls that leave a session alone: lemmas *)

Lemma same_call_refl s : same_call s s.
Proof. by intros k _ _. Qed.

Lemma same_call_trans s1 s2 s3 :
  same_call s1 s2 → same_call s2 s3 → same_call s1 s3.
Proof. intros H12 H23 k Ha Hb. by rewrite H23, H12. Qed.

Lemma same_call_marked t s : same_call s (marked t s).
Proof. intros k Ha Hb. unfold marked. by rewrite !lookup_insert_ne. Qed.

Lemma sessions_after_foreign i o m :
  foreign i o = true → sessions_after o m !! i = m !! i.
Proof.
  unfold foreign, keeps. destruct o as [clk j tp fp|clk j|clk j|clk j|clk];
    cbn [is_begin is_end is_mark sessions_after]; try done;
    rewrite ?andb_true_r, ?andb_true_l, ?negb_true_iff, ?bool_decide_eq_false;
    intros Hne.
  - by apply lookup_insert_ne.
  - by apply lookup_alter_ne.
  - by apply lookup_delete_ne.
Qed.

Lemma sessions_after_keeps i o m s :
  keeps i o = true → m !! i = Some s →
  ∃ s', sessions_after o m !! i = Some s' ∧ same_call s s'.
Proof.
  intros Hk Hi. destruct (is_mark i o) eqn:Hm.
  - destruct o as [| clk j | | |]; try done. cbn [is_mark] in Hm.
    apply bool_decide_eq_true in Hm as ->. cbn [sessions_after].
    exists (marked (time_time clk) s). rewrite lookup_alter_eq, Hi.
    split; [done | apply same_call_marked].
  - exists s. rewrite sessions_after_foreign; [|by unfold foreign; rewrite Hk, Hm].
    split; [done | apply same_call_refl].
Qed.

Lemma sessions_run_foreign i tr m :
  forallb (foreign i) tr = true → sessions_run tr m !! i = m !! i.
Proof.
  revert m. induction tr as [|o tr IH]; intros m Hall; [done|].
  cbn [forallb] in Hall. apply andb_true_iff in Hall as [Ho Hall].
  unfold sessions_run in *. cbn [foldl]. rewrite IH by done.
  by apply sessions_after_foreign.
Qed.

Lemma sessions_run_keeps i tr m s :
  forallb (keeps i) tr = true → m !! i = Some s →
  ∃ s', sessions_run tr m !! i = Some s' ∧ same_call s s'.
Proof.
  revert m s. induction tr as [|o tr IH]; intros m s Hall Hi.
  - exists s. split; [done | apply same_call_refl].
  - cbn [forallb] in Hall. apply andb_true_iff in Hall as [Ho Hall].
    destruct (sessions_after_keeps i o m s Ho Hi) as (s1 & H1 & Hs1).
    destruct (IH _ s1 Hall H1) as (s2 & H2 & Hs2).
    exists s2. split; [done | by eapply same_call_trans].
Qed.

Lemma same_call_start_of s s' : same_call s s' → start_of s' = start_of s.
Proof. intros H. unfold start_of. by rewrite H. Qed.

Lemma ended_lookup clk st s k :
  k ≠ "duration" → k ≠ "end_datetime" → k ≠ "end_time" →
  ended clk st s !! k = s !! k.
Proof. intros. unfold ended. by rewrite !lookup_insert_ne. Qed.

Lemma start_of_new_session t d tp fp : start_of (new_session t d tp fp) = t.
Proof. reflexivity. Qed.

(** * The tracked properties *)

(** C4.  [start_call_tracking] never fails, whatever the registry holds.  It
    stores under the id a record made only from its arguments and the clock:
    the two phone numbers, the start time just read, [agent_started] false,
    and [agent_start_time], [end_time] and [duration] set to [None].  A
    record already stored under the id is replaced; other ids keep theirs. *)
Theorem start_call_tracking_installs_fresh_record clk i tp fp w :
  ∃ w' s,
    start_call_tracking clk i tp fp w = Done tt w'
    ∧ _call_sessions w' !! i = Some s
    ∧ s = new_session (time_time clk) (datetime_now clk) tp fp
    ∧ s !! "to_phone" = Some (VStr tp)
    ∧ s !! "from_phone" = Some (VStr fp)
    ∧ s !! "start_time" = Some (VFloat (time_time clk))
    ∧ s !! "agent_started" = Some (VBool false)
    ∧ s !! "agent_start_time" = Some VNone
    ∧ s !! "end_time" = Some VNone
    ∧ s !! "duration" = Some VNone
    ∧ (∀ j, j ≠ i → _call_sessions w' !! j = _call_sessions w !! j).
Proof.
  eexists _, _. rewrite start_call_tracking_spec. cbn [_call_sessions].
  split; [done|]. split; [apply lookup_insert_eq|].
  repeat (split; [done|]).
  intros j Hj. by apply lookup_insert_ne.
Qed.

(** C3.  When the id is not in the registry, [end_call_tracking] returns
    [None] without raising; the registry is left as it was and one warning is
    logged. *)
Theorem end_call_tracking_not_found clk i w :
  _call_sessions w !! i = None →
  ∃ w', end_call_tracking clk i w = Done None w'
        ∧ _call_sessions w' = _call_sessions w
        ∧ log w' = log w ++ [(WARNING, EndNotFound i)].
Proof.
  intros H. eexists. by rewrite (end_call_tracking_absent _ _ _ H).
Qed.

Lemma end_call_tracking_not_found_witness :
  _call_sessions init !! "never-begun" = None
  ∧ ∃ w', end_call_tracking (Clock 7 8) "never-begun" init = Done None w'
          ∧ _call_sessions w' = _call_sessions init
          ∧ log w' = log init ++ [(WARNING, EndNotFound "never-begun")].
Proof.
  split; [reflexivity|].
  apply (end_call_tracking_not_found (Clock 7 8) "never-begun" init).
  reflexivity.
Defined.

(** C5.  When the id is not in the registry, [mark_agent_started] logs a
    warning and returns without raising, and the registry is left as it was;
    a [start_call_tracking] for that id afterwards returns the same and builds
    the same registry as it would have without the earlier call. *)
Theorem mark_agent_started_unknown_id clk i w :
  _call_sessions w !! i = None →
  ∃ w', mark_agent_started clk i w = Done tt w'
        ∧ _call_sessions w' = _call_sessions w
        ∧ log w' = log w ++ [(WARNING, AgentStartNotFound i)]
        ∧ ∀ clk' tp fp, ∃ w1 w2,
            start_call_tracking clk' i tp fp w = Done tt w1
            ∧ start_call_tracking clk' i tp fp w' = Done tt w2
            ∧ _call_sessions w2 = _call_sessions w1.
Proof.
  intros H. eexists. rewrite (mark_agent_started_absent _ _ _ H).
  repeat (split; [done|]). intros clk' tp fp.
  eexists _, _. by rewrite !start_call_tracking_spec.
Qed.

Lemma mark_agent_started_unknown_id_witness :
  _call_sessions init !! "early" = None
  ∧ ∃ w', mark_agent_started (Clock 3 4) "early" init = Done tt w'
        ∧ _call_sessions w' = _call_sessions init
        ∧ log w' = log init ++ [(WARNING, AgentStartNotFound "early")]
        ∧ ∀ clk' tp fp, ∃ w1 w2,
            start_call_tracking clk' "early" tp fp init = Done tt w1
            ∧ start_call_tracking clk' "early" tp fp w' = Done tt w2
            ∧ _call_sessions w2 = _call_sessions w1.
Proof.
  split; [reflexivity|].
  apply (mark_agent_started_unknown_id (Clock 3 4) "early" init).
  reflexivity.
Defined.

Lemma wf_start_of s :
  wf_session s → s !! "start_time" = Some (VFloat (start_of s)).
Proof. intros ([st Hst] & _). unfold start_of. by rewrite Hst. Qed.

(** A session from its [start_call_tracking] up to, but not including, its
    [end_call_tracking]: it is stored, well formed, and still the record that
    was created, apart from the agent fields. *)
Lemma run_begin_keeps w c0 i tp fp mid :
  wf_world w →
  forallb (keeps i) mid = true →
  ∃ w1 s,
    run (Begin c0 i tp fp :: mid) w = Done tt w1
    ∧ wf_world w1
    ∧ _call_sessions w1 !! i = Some s
    ∧ wf_session s
    ∧ same_call (new_session (time_time c0) (datetime_now c0) tp fp) s.
Proof.
  intros Hwf Hmid.
  destruct (run_wf (Begin c0 i tp fp :: mid) w Hwf) as (w1 & Hrun & Hs & Hwf1).
  unfold sessions_run in Hs. cbn [foldl sessions_after] in Hs.
  edestruct (sessions_run_keeps i mid) as (s & Hi & Hsame);
    [exact Hmid | apply lookup_insert_eq |].
  exists w1, s. unfold sessions_run in Hi. rewrite <- Hs in Hi.
  repeat (split; [done|]). split; [by apply (Hwf1 i s)|done].
Qed.

(** C7.  A session is begun and, with no second begin or end for that id in
    between, ended: [end_call_tracking] returns the record, whose [duration]
    is the end time read by [end_call_tracking] minus the start time read by
    [start_call_tracking]; the id is then not among the active calls. *)
Theorem end_call_tracking_duration w c0 c2 i tp fp mid :
  reachable w →
  forallb (keeps i) mid = true →
  ∃ w1 r w2,
    run (Begin c0 i tp fp :: mid) w = Done tt w1
    ∧ end_call_tracking c2 i w1 = Done (Some r) w2
    ∧ r !! "start_time" = Some (VFloat (time_time c0))
    ∧ r !! "end_time" = Some (VFloat (time_time c2))
    ∧ r !! "duration" = Some (VFloat (time_time c2 - time_time c0))
    ∧ ∀ clk, ∃ calls,
        get_active_calls clk w2 = Done calls w2 ∧ calls !! i = None.
Proof.
  intros Hw Hmid.
  destruct (run_begin_keeps w c0 i tp fp mid (reachable_wf _ Hw) Hmid)
    as (w1 & s & Hrun & Hwf1 & Hi & Hwfs & Hsame).
  eexists w1, _, _. split; [done|].
  rewrite (end_call_tracking_live _ _ _ _ Hi Hwfs). split; [done|].
  rewrite (same_call_start_of _ _ Hsame), start_of_new_session.
  split; [by rewrite ended_lookup, Hsame|].
  split; [unfold ended; by look|].
  split; [unfold ended; by look|].
  intros clk. eexists. rewrite get_active_calls_wf.
  - split; [done|]. cbn [_call_sessions].
    by rewrite lookup_fmap, lookup_delete_eq.
  - by apply map_Forall_delete.
Qed.

Lemma end_call_tracking_duration_witness :
  reachable init
  ∧ forallb (keeps "c1") [GetStatus (Clock 101 1101) "c1";
                          MarkAgentStarted (Clock 102 1102) "c1";
                          Begin (Clock 103 1103) "c2" "+1666" "+1777"] = true
  ∧ ∃ w1 r w2,
      run (Begin (Clock 100 1100) "c1" "+1555" "+1777"
             :: [GetStatus (Clock 101 1101) "c1";
                 MarkAgentStarted (Clock 102 1102) "c1";
                 Begin (Clock 103 1103) "c2" "+1666" "+1777"]) init
      = Done tt w1
      ∧ end_call_tracking (Clock 104 1104) "c1" w1 = Done (Some r) w2
      ∧ r !! "start_time" = Some (VFloat (time_time (Clock 100 1100)))
      ∧ r !! "end_time" = Some (VFloat (time_time (Clock 104 1104)))
      ∧ r !! "duration"
        = Some (VFloat (time_time (Clock 104 1104) - time_time (Clock 100 1100)))
      ∧ ∀ clk, ∃ calls,
          get_active_calls clk w2 = Done calls w2 ∧ calls !! "c1" = None.
Proof.
  split; [apply reachable_init|]. split; [reflexivity|].
  apply (end_call_tracking_duration init (Clock 100 1100) (Clock 104 1104)
           "c1" "+1555" "+1777").
  - apply reachable_init.
  - reflexivity.
Defined.

(** C9.  From the [start_call_tracking] that creates a session until its
    end, whatever calls come in between (agent marks, queries, calls on other
    ids), the stored [to_phone] and [from_phone] are the ones passed at
    creation, and so are those of the view returned by [get_call_status] and
    of the record returned by [end_call_tracking]. *)
Theorem phone_numbers_are_kept w c0 i tp fp mid :
  reachable w →
  forallb (keeps i) mid = true →
  ∃ w1 s,
    run (Begin c0 i tp fp :: mid) w = Done tt w1
    ∧ _call_sessions w1 !! i = Some s
    ∧ s !! "to_phone" = Some (VStr tp)
    ∧ s !! "from_phone" = Some (VStr fp)
    ∧ (∀ clk, ∃ v,
         get_call_status clk i w1 = Done (Some v) w1
         ∧ v !! "to_phone" = Some (VStr tp)
         ∧ v !! "from_phone" = Some (VStr fp))
    ∧ (∀ clk, ∃ calls v,
         get_active_calls clk w1 = Done calls w1
         ∧ calls !! i = Some v
         ∧ v !! "to_phone" = Some (VStr tp)
         ∧ v !! "from_phone" = Some (VStr fp))
    ∧ (∀ clk, ∃ r w2,
         end_call_tracking clk i w1 = Done (Some r) w2
         ∧ r !! "to_phone" = Some (VStr tp)
         ∧ r !! "from_phone" = Some (VStr fp)).
Proof.
  intros Hw Hmid.
  destruct (run_begin_keeps w c0 i tp fp mid (reachable_wf _ Hw) Hmid)
    as (w1 & s & Hrun & Hwf1 & Hi & Hwfs & Hsame).
  assert (Htp : s !! "to_phone" = Some (VStr tp)) by by rewrite Hsame.
  assert (Hfp : s !! "from_phone" = Some (VStr fp)) by by rewrite Hsame.
  exists w1, s. repeat (split; [done|]). split; [|split].
  - intros clk. eexists. rewrite (get_call_status_live _ _ _ _ Hi Hwfs).
    split; [done|]. unfold view. by rewrite !lookup_insert_ne.
  - intros clk. eexists _, _. rewrite (get_active_calls_wf _ _ Hwf1).
    split; [done|]. rewrite lookup_fmap, Hi. split; [done|].
    unfold view. by rewrite !lookup_insert_ne.
  - intros clk. eexists _, _.
    rewrite (end_call_tracking_live _ _ _ _ Hi Hwfs). split; [done|].
    by rewrite !ended_lookup.
Qed.

Lemma phone_numbers_are_kept_witness :
  reachable init
  ∧ forallb (keeps "c1") [MarkAgentStarted (Clock 11 21) "c1";
                          GetActiveCalls (Clock 12 22);
                          End (Clock 13 23) "c0"] = true
  ∧ ∃ w1 s,
      run (Begin (Clock 10 20) "c1" "+1555" "+1777"
             :: [MarkAgentStarted (Clock 11 21) "c1";
                 GetActiveCalls (Clock 12 22);
                 End (Clock 13 23) "c0"]) init = Done tt w1
      ∧ _call_sessions w1 !! "c1" = Some s
      ∧ s !! "to_phone" = Some (VStr "+1555")
      ∧ s !! "from_phone" = Some (VStr "+1777")
      ∧ (∀ clk, ∃ v,
           get_call_status clk "c1" w1 = Done (Some v) w1
           ∧ v !! "to_phone" = Some (VStr "+1555")
           ∧ v !! "from_phone" = Some (VStr "+1777"))
      ∧ (∀ clk, ∃ calls v,
           get_active_calls clk w1 = Done calls w1
           ∧ calls !! "c1" = Some v
           ∧ v !! "to_phone" = Some (VStr "+1555")
           ∧ v !! "from_phone" = Some (VStr "+1777"))
      ∧ (∀ clk, ∃ r w2,
           end_call_tracking clk "c1" w1 = Done (Some r) w2
           ∧ r !! "to_phone" = Some (VStr "+1555")
           ∧ r !! "from_phone" = Some (VStr "+1777")).
Proof.
  split; [apply reachable_init|]. split; [reflexivity|].
  apply (phone_numbers_are_kept init (Clock 10 20) "c1" "+1555" "+1777").
  - apply reachable_init.
  - reflexivity.
Defined.

(** The session right after an agent mark, and after further calls that
    leave it alone. *)
Lemma run_begin_mark_foreign w c0 c1 i tp fp mid1 mid2 :
  wf_world w →
  forallb (keeps i) mid1 = true →
  forallb (foreign i) mid2 = true →
  ∃ w1 s0,
    run (Begin c0 i tp fp :: mid1 ++ MarkAgentStarted c1 i :: mid2) w
    = Done tt w1
    ∧ wf_world w1
    ∧ _call_sessions w1 !! i = Some (marked (time_time c1) s0)
    ∧ same_call (new_session (time_time c0) (datetime_now c0) tp fp) s0.
Proof.
  intros Hwf Hmid1 Hmid2.
  destruct (run_begin_keeps w c0 i tp fp mid1 Hwf Hmid1)
    as (wa & s0 & Hruna & Hwfa & Hia & Hwfs0 & Hsame).
  destruct (run_wf (MarkAgentStarted c1 i :: mid2) wa Hwfa)
    as (w1 & Hrunb & Hsb & Hwf1).
  exists w1, s0.
  rewrite app_comm_cons, run_app, Hruna, Hrunb.
  repeat (split; [done|]). split; [|done].
  rewrite Hsb. unfold sessions_run. cbn [foldl sessions_after].
  fold (sessions_run mid2 (alter (marked (time_time c1)) i (_call_sessions wa))).
  rewrite sessions_run_foreign by done.
  by rewrite lookup_alter_eq, Hia.
Qed.

(** C1, as amended.  After begin, agent mark and end of one session (other
    calls may come in between, but no second begin or end of it, and no
    further mark after the one considered), the record returned by
    [end_call_tracking] has [agent_started] true and carries the time read by
    [mark_agent_started] as [agent_start_time] and the time read by
    [end_call_tracking] as [end_time]; it has no [agent_duration] key.  The
    agent duration, [end_time - agent_start_time], goes to the summary log
    line only, where it is shown when the agent start time and the difference
    are both non-zero. *)
Theorem end_call_tracking_agent_duration_logged w c0 c1 c2 i tp fp mid1 mid2 :
  reachable w →
  forallb (keeps i) mid1 = true →
  forallb (foreign i) mid2 = true →
  ∃ w1 r w2,
    run (Begin c0 i tp fp :: mid1 ++ MarkAgentStarted c1 i :: mid2) w
    = Done tt w1
    ∧ end_call_tracking c2 i w1 = Done (Some r) w2
    ∧ r !! "agent_started" = Some (VBool true)
    ∧ r !! "agent_start_time" = Some (VFloat (time_time c1))
    ∧ r !! "end_time" = Some (VFloat (time_time c2))
    ∧ r !! "agent_duration" = None
    ∧ (time_time c1 ≠ 0 → time_time c2 - time_time c1 ≠ 0 →
       log w2 = log w1 ++
         [(INFO, CallEnded i (VStr fp) (VStr tp)
                   (datetime_now c0) (datetime_now c2)
                   (time_time c2 - time_time c0)
                   (Some (time_time c2 - time_time c1)))]).
Proof.
  intros Hw Hmid1 Hmid2.
  destruct (run_begin_mark_foreign w c0 c1 i tp fp mid1 mid2
              (reachable_wf _ Hw) Hmid1 Hmid2)
    as (w1 & s0 & Hrun & Hwf1 & Hi & Hsame).
  pose proof (Hwf1 i _ Hi) as Hwfs.
  pose proof (same_call_trans _ _ _ Hsame (same_call_marked (time_time c1) s0))
    as Hsame'.
  eexists w1, _, _. split; [done|].
  rewrite (end_call_tracking_live _ _ _ _ Hi Hwfs). split; [done|].
  split; [rewrite ended_lookup by done; unfold marked; by look|].
  split; [rewrite ended_lookup by done; unfold marked; by look|].
  split; [unfold ended; by look|].
  split; [by rewrite ended_lookup, Hsame'|].
  intros Hc1 Hc21. cbn [log]. do 3 f_equal.
  rewrite (same_call_start_of _ _ Hsame'), start_of_new_session.
  unfold field. rewrite !Hsame' by done. unfold marked. look.
  unfold agent_shown, new_session. look. simpl.
  apply Z.eqb_neq in Hc1, Hc21. by rewrite Hc1, Hc21.
Qed.

Lemma end_call_tracking_agent_duration_logged_witness :
  reachable init
  ∧ forallb (keeps "c1") [GetStatus (Clock 100 1100) "c1"] = true
  ∧ forallb (foreign "c1") [GetActiveCalls (Clock 102 1102)] = true
  ∧ ∃ w1 r w2,
      run (Begin (Clock 100 1100) "c1" "+1555" "+1777"
             :: [GetStatus (Clock 100 1100) "c1"]
             ++ MarkAgentStarted (Clock 101 1101) "c1"
             :: [GetActiveCalls (Clock 102 1102)]) init
      = Done tt w1
      ∧ end_call_tracking (Clock 102 1102) "c1" w1 = Done (Some r) w2
      ∧ r !! "agent_started" = Some (VBool true)
      ∧ r !! "agent_start_time" = Some (VFloat (time_time (Clock 101 1101)))
      ∧ r !! "end_time" = Some (VFloat (time_time (Clock 102 1102)))
      ∧ r !! "agent_duration" = None
      ∧ (time_time (Clock 101 1101) ≠ 0 →
         time_time (Clock 102 1102) - time_time (Clock 101 1101) ≠ 0 →
         log w2 = log w1 ++
           [(INFO, CallEnded "c1" (VStr "+1777") (VStr "+1555")
                     (datetime_now (Clock 100 1100))
                     (datetime_now (Clock 102 1102))
                     (time_time (Clock 102 1102) - time_time (Clock 100 1100))
                     (Some (time_time (Clock 102 1102)
                            - time_time (Clock 101 1101))))]).
Proof.
  split; [apply reachable_init|]. split; [reflexivity|]. split; [reflexivity|].
  apply (end_call_tracking_agent_duration_logged init (Clock 100 1100)
           (Clock 101 1101) (Clock 102 1102) "c1" "+1555" "+1777").
  - apply reachable_init.
  - reflexivity.
  - reflexivity.
Defined.

(** C1 as stated fails: in the scenario of the specification (begin at 100,
    agent mark at 101, end at 102) the record returned by
    [end_call_tracking] has no [agent_duration] key at all, so in particular
    not one holding [102 - 101]. *)
Lemma end_call_tracking_record_lacks_agent_duration :
  ∃ w1 r w2,
    run [Begin (Clock 100 1100) "c1" "+1555" "+1777";
         MarkAgentStarted (Clock 101 1101) "c1"] init = Done tt w1
    ∧ end_call_tracking (Clock 102 1102) "c1" w1 = Done (Some r) w2
    ∧ r !! "agent_started" = Some (VBool true)
    ∧ r !! "agent_duration" = None
    ∧ r !! "agent_duration" ≠ Some (VFloat (102 - 101))
    ∧ dom r = list_to_set ["start_time"; "start_datetime"; "to_phone";
                           "from_phone"; "agent_started"; "agent_start_time";
                           "end_time"; "end_datetime"; "duration"].
Proof.
  eexists _, _, _. split; [vm_compute; reflexivity|].
  split; [vm_compute; reflexivity|].
  split; [vm_compute; reflexivity|].
  split; [vm_compute; reflexivity|].
  split; [vm_compute; discriminate|].
  vm_compute. reflexivity.
Qed.

(** A stored session across calls that neither create nor end it. *)
Lemma run_keeps w i s mid :
  wf_world w →
  _call_sessions w !! i = Some s →
  forallb (keeps i) mid = true →
  ∃ w' s',
    run mid w = Done tt w'
    ∧ wf_world w'
    ∧ _call_sessions w' !! i = Some s'
    ∧ wf_session s'
    ∧ same_call s s'.
Proof.
  intros Hwf Hi Hmid.
  destruct (run_wf mid w Hwf) as (w' & Hrun & Hs & Hwf').
  destruct (sessions_run_keeps i mid _ s Hmid Hi) as (s' & Hi' & Hsame).
  rewrite <- Hs in Hi'. exists w', s'.
  repeat (split; [done|]). split; [by apply (Hwf' i s')|done].
Qed.




(** C8.  Two polls of a live session with [get_call_status], at clock
    readings [c1] and then [c2] not earlier, with calls in between that
    neither re-create nor end the session: each returns a view whose
    [current_duration] is its own reading minus the session's [start_time],
    which is the same at both polls, so the second one's is at least the
    first one's. *)
Theorem get_call_status_current_duration_monotone w c1 c2 i s mid :
  reachable w →
  _call_sessions w !! i = Some s →
  forallb (keeps i) mid = true →
  time_time c1 ≤ time_time c2 →
  ∃ st v1 w' v2 d1 d2,
    s !! "start_time" = Some (VFloat st)
    ∧ get_call_status c1 i w = Done (Some v1) w
    ∧ run mid w = Done tt w'
    ∧ get_call_status c2 i w' = Done (Some v2) w'
    ∧ v1 !! "start_time" = Some (VFloat st)
    ∧ v2 !! "start_time" = Some (VFloat st)
    ∧ v1 !! "current_duration" = Some (VFloat d1)
    ∧ v2 !! "current_duration" = Some (VFloat d2)
    ∧ d1 = time_time c1 - st
    ∧ d2 = time_time c2 - st
    ∧ d1 ≤ d2.
Proof.
  intros Hw Hi Hmid Hle. pose proof (reachable_wf _ Hw) as Hwf.
  pose proof (wf_start_of s (Hwf i s Hi)) as Hst.
  destruct (run_keeps w i s mid Hwf Hi Hmid)
    as (w' & s' & Hrun & Hwf' & Hi' & Hwfs' & Hsame).
  assert (Hst' : s' !! "start_time" = Some (VFloat (start_of s)))
    by by rewrite Hsame.
  eexists (start_of s), _, w', _, _, _. split; [done|].
  rewrite (get_call_status_live _ _ _ _ Hi (Hwf i s Hi)).
  rewrite (get_call_status_live _ _ _ _ Hi' Hwfs').
  unfold view. rewrite (same_call_start_of _ _ Hsame).
  split; [done|]. split; [done|]. split; [done|].
  split; [by rewrite lookup_insert_ne|].
  split; [by rewrite lookup_insert_ne|].
  split; [apply lookup_insert_eq|]. split; [apply lookup_insert_eq|].
  split; [done|]. split; [done|]. lia.
Qed.

Lemma get_call_status_current_duration_monotone_witness :
  reachable sample_world
  ∧ _call_sessions sample_world !! "c1" = Some sample_session
  ∧ forallb (keeps "c1") [MarkAgentStarted (Clock 103 1103) "c1"; GetActiveCalls (Clock 104 1104)] = true
  ∧ time_time (Clock 102 1102) ≤ time_time (Clock 107 1107)
  ∧ ∃ st v1 w' v2 d1 d2,
      sample_session !! "start_time" = Some (VFloat st)
      ∧ get_call_status (Clock 102 1102) "c1" sample_world
        = Done (Some v1) sample_world
      ∧ run [MarkAgentStarted (Clock 103 1103) "c1";
             GetActiveCalls (Clock 104 1104)] sample_world = Done tt w'
      ∧ get_call_status (Clock 107 1107) "c1" w' = Done (Some v2) w'
      ∧ v1 !! "start_time" = Some (VFloat st)
      ∧ v2 !! "start_time" = Some (VFloat st)
      ∧ v1 !! "current_duration" = Some (VFloat d1)
      ∧ v2 !! "current_duration" = Some (VFloat d2)
      ∧ d1 = time_time (Clock 102 1102) - st
      ∧ d2 = time_time (Clock 107 1107) - st
      ∧ d1 ≤ d2.
Proof.
  assert (Hw : reachable sample_world)
    by (exists [Begin (Clock 100 1100) "c1" "+1555" "+1777"]; reflexivity).
  split; [exact Hw|]. split; [reflexivity|]. split; [reflexivity|].
  split; [cbn; lia|].
  apply (get_call_status_current_duration_monotone sample_world (Clock 102 1102)
           (Clock 107 1107) "c1" sample_session
           ([MarkAgentStarted (Clock 103 1103) "c1"; GetActiveCalls (Clock 104 1104)])).
  - exact Hw.
  - reflexivity.
  - reflexivity.
  - cbn; lia.
Defined.

(** ** The key set of the registry *)

Lemma dom_sessions_after o m :
  dom (sessions_after o m) = open_step (dom m) o.
Proof.
  destruct o; cbn [sessions_after open_step];
    [apply dom_insert_L | apply dom_alter_L | apply dom_delete_L | done | done].
Qed.

Lemma dom_sessions_run tr m :
  dom (sessions_run tr m) = foldl open_step (dom m) tr.
Proof.
  revert m. induction tr as [|o tr IH]; intros m; [done|].
  unfold sessions_run in *. cbn [foldl]. by rewrite IH, dom_sessions_after.
Qed.

Lemma begun_not_ended_nil i : ¬ begun_not_ended i [].
Proof. intros (pre & o & post & H & _). by destruct pre. Qed.

Lemma begun_not_ended_cons i o tr :
  begun_not_ended i (o :: tr)
  ↔ (is_begin i o = true ∧ no_end_of i tr = true) ∨ begun_not_ended i tr.
Proof.
  split.
  - intros (pre & o' & post & H & Hb & He). destruct pre as [|p pre].
    + injection H as -> ->. by left.
    + injection H as -> ->. right. by exists pre, o', post.
  - intros [[Hb He] | (pre & o' & post & -> & Hb & He)].
    + by exists [], o, tr.
    + by exists (o :: pre), o', post.
Qed.

Lemma elem_of_open_step i acc o :
  i ∈ open_step acc o
  ↔ is_begin i o = true ∨ (i ∈ acc ∧ is_end i o = false).
Proof.
  destruct o as [clk j tp fp|clk j|clk j|clk j|clk];
    cbn [open_step is_begin is_end];
    rewrite ?bool_decide_eq_true, ?bool_decide_eq_false; set_solver.
Qed.

Lemma begin_is_not_end i o : is_begin i o = true → is_end i o = false.
Proof. by destruct o. Qed.

Lemma elem_of_foldl_open_step i acc tr :
  i ∈ foldl open_step acc tr
  ↔ (i ∈ acc ∧ no_end_of i tr = true) ∨ begun_not_ended i tr.
Proof.
  revert acc. induction tr as [|o tr IH]; intros acc.
  - cbn. pose proof (begun_not_ended_nil i). naive_solver.
  - cbn [foldl]. rewrite IH, begun_not_ended_cons, elem_of_open_step.
    unfold no_end_of. cbn [forallb]. rewrite andb_true_iff, negb_true_iff.
    pose proof (begin_is_not_end i o). naive_solver.
Qed.

(** C2.  After any sequence of calls on a new tracker, the keys of the
    registry, and the keys of the dict [get_active_calls] returns, are exactly
    the ids for which the sequence has a [start_call_tracking] that no later
    [end_call_tracking] follows.  A successful [end_call_tracking] removes its
    id from the registry, and from what [get_active_calls] returns
    afterwards, and nothing else. *)
Theorem get_active_calls_keys tr clk :
  ∃ w calls,
    run tr init = Done tt w
    ∧ get_active_calls clk w = Done calls w
    ∧ dom (_call_sessions w) = open_ids tr
    ∧ dom calls = open_ids tr
    ∧ (∀ i, i ∈ dom calls ↔ begun_not_ended i tr)
    ∧ ∀ c i,
        _call_sessions w !! i = None
        ∨ ∃ r w2 calls2,
            end_call_tracking c i w = Done (Some r) w2
            ∧ _call_sessions w2 = delete i (_call_sessions w)
            ∧ _call_sessions w2 !! i = None
            ∧ get_active_calls clk w2 = Done calls2 w2
            ∧ dom calls2 = dom calls ∖ {[i]}.
Proof.
  destruct (run_wf tr init wf_init) as (w & Hrun & Hs & Hwf).
  eexists w, _. split; [done|]. rewrite (get_active_calls_wf _ _ Hwf).
  split; [done|].
  assert (Hreg : dom (_call_sessions w) = foldl open_step ∅ tr).
  { rewrite Hs, dom_sessions_run. cbn [init _call_sessions].
    by rewrite dom_empty_L. }
  assert (Hdom : dom (view (time_time clk) <$> _call_sessions w)
                 = foldl open_step ∅ tr)
    by by rewrite dom_fmap_L.
  split; [exact Hreg|]. split; [exact Hdom|]. split.
  - intros i. rewrite Hdom, elem_of_foldl_open_step. set_solver.
  - intros c i.
    destruct (_call_sessions w !! i) as [s|] eqn:Hi; [right|by left].
    eexists _, _, _.
    rewrite (end_call_tracking_live _ _ _ _ Hi (Hwf i s Hi)).
    split; [done|]. cbn [_call_sessions]. split; [done|].
    split; [apply lookup_delete_eq|].
    rewrite get_active_calls_wf by by apply map_Forall_delete.
    split; [done|]. cbn [_call_sessions].
    by rewrite !dom_fmap_L, dom_delete_L.
Qed.

(** C10.  After any sequence of calls on a new tracker, every stored session
    has [end_time] [None]; so [get_active_calls] skips none of them, its keys
    being all the keys of the registry, and [get_call_status] either returns
    [None] or a view that has a [current_duration]. *)
Theorem stored_sessions_have_no_end_time tr :
  ∃ w,
    run tr init = Done tt w
    ∧ map_Forall (λ _ s, s !! "end_time" = Some VNone) (_call_sessions w)
    ∧ (∀ clk, ∃ calls,
         get_active_calls clk w = Done calls w
         ∧ dom calls = dom (_call_sessions w))
    ∧ (∀ clk i,
         get_call_status clk i w = Done None w
         ∨ ∃ v d, get_call_status clk i w = Done (Some v) w
                  ∧ v !! "current_duration" = Some (VFloat d)).
Proof.
  destruct (run_wf tr init wf_init) as (w & Hrun & Hs & Hwf).
  exists w. split; [done|]. split; [|split].
  - intros i s Hi. by destruct (Hwf i s Hi) as (_ & _ & _ & _ & Hend & _).
  - intros clk. eexists. rewrite (get_active_calls_wf _ _ Hwf).
    split; [done|]. apply dom_fmap_L.
  - intros clk i. destruct (_call_sessions w !! i) as [s|] eqn:Hi.
    + right. eexists _, _.
      rewrite (get_call_status_live _ _ _ _ Hi (Hwf i s Hi)).
      split; [done|]. apply lookup_insert_eq.
    + left. by apply get_call_status_absent.
Qed.

(** * Further properties of the tracker *)

(** ** No call raises *)

(** X1.  Starting from a new tracker, no sequence of calls to the five
    methods raises: every lookup the methods make finds its key and every
    subtraction and format gets a number. *)
Theorem run_never_raises tr : ∃ w, run tr init = Done tt w.
Proof.
  destruct (run_wf tr init wf_init) as (w & Hrun & _). by exists w.
Qed.

(** ** The queries only read *)

Lemma active_loop_world t items acc w :
  world_of (active_loop t items acc w) = w.
Proof.
  revert acc. induction items as [|[k s] items IH]; intros acc; [done|].
  cbn [active_loop]. run_m.
  destruct (s !! "end_time") as [e|]; [|done]. run_m.
  destruct (is_none e); [|apply IH].
  destruct (s !! "start_time") as [[| | x | |]|]; try done.
Qed.

(** X2.  [get_call_status] and [get_active_calls] never change the registry
    or the log, in any world and whether they return or raise: what they add
    ([current_duration]) goes into the copies they hand out. *)
Theorem queries_leave_the_world_unchanged clk i w :
  world_of (get_call_status clk i w) = w
  ∧ world_of (get_active_calls clk w) = w.
Proof.
  split; [|apply active_loop_world].
  destruct (_call_sessions w !! i) as [s|] eqn:Hi.
  - unfold get_call_status. run_m. rewrite (mem_true _ _ _ Hi). run_m.
    rewrite Hi. run_m.
    destruct (s !! "end_time") as [e|]; [|done]. run_m.
    destruct (is_none e); [|done].
    by destruct (s !! "start_time") as [[| | x | |]|].
  - by rewrite (get_call_status_absent _ _ _ Hi).
Qed.

(** ** Ending is final *)

(** X3.  Once [end_call_tracking] has returned the record of a live session,
    the id is unknown again: a second [end_call_tracking] returns [None] and
    logs the not-found warning, [get_call_status] returns [None], and
    [mark_agent_started] only logs its warning. *)
Theorem end_call_tracking_is_final w c c' i s :
  reachable w →
  _call_sessions w !! i = Some s →
  ∃ r w1,
    end_call_tracking c i w = Done (Some r) w1
    ∧ _call_sessions w1 !! i = None
    ∧ end_call_tracking c' i w1
      = Done None (World (_call_sessions w1)
                     (log w1 ++ [(WARNING, EndNotFound i)]))
    ∧ get_call_status c' i w1 = Done None w1
    ∧ mark_agent_started c' i w1
      = Done tt (World (_call_sessions w1)
                   (log w1 ++ [(WARNING, AgentStartNotFound i)])).
Proof.
  intros Hw Hi. pose proof (reachable_wf _ Hw i s Hi) as Hwfs.
  eexists _, _. rewrite (end_call_tracking_live _ _ _ _ Hi Hwfs).
  split; [done|].
  assert (Hgone : delete i (_call_sessions w) !! i = None)
    by apply lookup_delete_eq.
  split; [exact Hgone|].
  split; [by apply end_call_tracking_absent|].
  split; [by apply get_call_status_absent|].
  by apply mark_agent_started_absent.
Qed.

Lemma end_call_tracking_is_final_witness :
  reachable sample_world
  ∧ _call_sessions sample_world !! "c1" = Some sample_session
  ∧ ∃ r w1,
      end_call_tracking (Clock 130 1130) "c1" sample_world = Done (Some r) w1
      ∧ _call_sessions w1 !! "c1" = None
      ∧ end_call_tracking (Clock 131 1131) "c1" w1
        = Done None (World (_call_sessions w1)
                       (log w1 ++ [(WARNING, EndNotFound "c1")]))
      ∧ get_call_status (Clock 131 1131) "c1" w1 = Done None w1
      ∧ mark_agent_started (Clock 131 1131) "c1" w1
        = Done tt (World (_call_sessions w1)
                     (log w1 ++ [(WARNING, AgentStartNotFound "c1")])).
Proof.
  assert (Hw : reachable sample_world)
    by (exists [Begin (Clock 100 1100) "c1" "+1555" "+1777"]; reflexivity).
  split; [exact Hw|]. split; [reflexivity|].
  apply (end_call_tracking_is_final sample_world (Clock 130 1130)
           (Clock 131 1131) "c1" sample_session).
  - exact Hw.
  - reflexivity.
Defined.

(** ** Sessions do not interfere *)

(** X5.  Queries and calls made for other ids leave the stored record of a
    session exactly as it is, field by field. *)
Theorem other_calls_leave_the_session_alone w i s mid :
  reachable w →
  _call_sessions w !! i = Some s →
  forallb (foreign i) mid = true →
  ∃ w', run mid w = Done tt w' ∧ _call_sessions w' !! i = Some s.
Proof.
  intros Hw Hi Hmid.
  destruct (run_wf mid w (reachable_wf _ Hw)) as (w' & Hrun & Hs & _).
  exists w'. split; [done|]. by rewrite Hs, sessions_run_foreign.
Qed.

Lemma other_calls_leave_the_session_alone_witness :
  reachable sample_world
  ∧ _call_sessions sample_world !! "c1" = Some sample_session
  ∧ forallb (foreign "c1")
      [Begin (Clock 110 1110) "c2" "+1666" "+1777";
       MarkAgentStarted (Clock 111 1111) "c2";
       GetStatus (Clock 112 1112) "c1";
       GetActiveCalls (Clock 113 1113);
       End (Clock 114 1114) "c2"] = true
  ∧ ∃ w',
      run [Begin (Clock 110 1110) "c2" "+1666" "+1777";
           MarkAgentStarted (Clock 111 1111) "c2";
           GetStatus (Clock 112 1112) "c1";
           GetActiveCalls (Clock 113 1113);
           End (Clock 114 1114) "c2"] sample_world = Done tt w'
      ∧ _call_sessions w' !! "c1" = Some sample_session.
Proof.
  assert (Hw : reachable sample_world)
    by (exists [Begin (Clock 100 1100) "c1" "+1555" "+1777"]; reflexivity).
  split; [exact Hw|]. split; [reflexivity|]. split; [reflexivity|].
  apply (other_calls_leave_the_session_alone sample_world "c1" sample_session).
  - exact Hw.
  - reflexivity.
  - reflexivity.
Defined.

(** ** A call that ends before the agent starts *)

(** X4.  A session that is begun and ended with no [mark_agent_started] for
    it in between: the returned record has [agent_started] false and
    [agent_start_time] [None], and the summary line carries the total
    duration and no agent duration. *)
Theorem end_call_tracking_agent_never_started w c0 c2 i tp fp mid :
  reachable w →
  forallb (foreign i) mid = true →
  ∃ w1 r w2,
    run (Begin c0 i tp fp :: mid) w = Done tt w1
    ∧ end_call_tracking c2 i w1 = Done (Some r) w2
    ∧ r !! "agent_started" = Some (VBool false)
    ∧ r !! "agent_start_time" = Some VNone
    ∧ r !! "duration" = Some (VFloat (time_time c2 - time_time c0))
    ∧ log w2 = log w1 ++
        [(INFO, CallEnded i (VStr fp) (VStr tp)
                  (datetime_now c0) (datetime_now c2)
                  (time_time c2 - time_time c0) None)].
Proof.
  intros Hw Hmid.
  destruct (run_wf (Begin c0 i tp fp :: mid) w (reachable_wf _ Hw))
    as (w1 & Hrun & Hs & Hwf1).
  assert (Hi : _call_sessions w1 !! i
               = Some (new_session (time_time c0) (datetime_now c0) tp fp)).
  { rewrite Hs. unfold sessions_run. cbn [foldl sessions_after].
    fold (sessions_run mid
            (<[i:=new_session (time_time c0) (datetime_now c0) tp fp]>
               (_call_sessions w))).
    rewrite sessions_run_foreign by done. apply lookup_insert_eq. }
  eexists w1, _, _. split; [done|].
  rewrite (end_call_tracking_live _ _ _ _ Hi (wf_new_session _ _ _ _)).
  split; [done|]. rewrite start_of_new_session.
  split; [by rewrite ended_lookup|]. split; [by rewrite ended_lookup|].
  split; [unfold ended; by look|]. reflexivity.
Qed.

Lemma end_call_tracking_agent_never_started_witness :
  reachable init
  ∧ forallb (foreign "c1") [GetStatus (Clock 101 1101) "c1";
                            MarkAgentStarted (Clock 102 1102) "c2"] = true
  ∧ ∃ w1 r w2,
      run (Begin (Clock 100 1100) "c1" "+1555" "+1777"
             :: [GetStatus (Clock 101 1101) "c1";
                 MarkAgentStarted (Clock 102 1102) "c2"]) init = Done tt w1
      ∧ end_call_tracking (Clock 103 1103) "c1" w1 = Done (Some r) w2
      ∧ r !! "agent_started" = Some (VBool false)
      ∧ r !! "agent_start_time" = Some VNone
      ∧ r !! "duration"
        = Some (VFloat (time_time (Clock 103 1103) - time_time (Clock 100 1100)))
      ∧ log w2 = log w1 ++
          [(INFO, CallEnded "c1" (VStr "+1777") (VStr "+1555")
                    (datetime_now (Clock 100 1100))
                    (datetime_now (Clock 103 1103))
                    (time_time (Clock 103 1103) - time_time (Clock 100 1100))
                    None)].
Proof.
  split; [apply reachable_init|]. split; [reflexivity|].
  apply (end_call_tracking_agent_never_started init (Clock 100 1100)
           (Clock 103 1103) "c1" "+1555" "+1777").
  - apply reachable_init.
  - reflexivity.
Defined.

(** ** The stored record between begin and end *)

Lemma marked_marked t t' s : marked t (marked t' s) = marked t s.
Proof.
  apply map_eq. intros k. unfold marked.
  destruct (decide (k = "agent_start_time")) as [->|].
  - rewrite lookup_insert_eq. by rewrite lookup_insert_eq.
  - destruct (decide (k = "agent_started")) as [->|].
    + rewrite !(lookup_insert_ne _ "agent_start_time") by done.
      rewrite lookup_insert_eq. by rewrite lookup_insert_eq.
    + by repeat (rewrite lookup_insert_ne by done).
Qed.

Lemma last_mark_foldl i tr : last_mark i tr = foldl (mark_step i) None tr.
Proof. reflexivity. Qed.

Lemma sessions_after_with_mark i o m acc s0 :
  keeps i o = true →
  m !! i = Some (with_mark acc s0) →
  sessions_after o m !! i = Some (with_mark (mark_step i acc o) s0).
Proof.
  intros Hk Hi. destruct (is_mark i o) eqn:Hm.
  - destruct o as [| clk j | | |]; try done. cbn [is_mark] in Hm.
    cbn [sessions_after mark_step]. rewrite Hm.
    apply bool_decide_eq_true in Hm as ->.
    rewrite lookup_alter_eq, Hi.
    destruct acc as [t'|]; cbn [fmap option_fmap option_map with_mark];
      [by rewrite marked_marked | done].
  - rewrite sessions_after_foreign; [|by unfold foreign; rewrite Hk, Hm].
    rewrite Hi. f_equal. f_equal.
    destruct o as [| clk j | | |]; try done. cbn [is_mark] in Hm.
    cbn [mark_step]. by rewrite Hm.
Qed.

Lemma sessions_run_with_mark i tr m acc s0 :
  forallb (keeps i) tr = true →
  m !! i = Some (with_mark acc s0) →
  sessions_run tr m !! i = Some (with_mark (foldl (mark_step i) acc tr) s0).
Proof.
  revert m acc. induction tr as [|o tr IH]; intros m acc Hall Hi; [done|].
  cbn [forallb] in Hall. apply andb_true_iff in Hall as [Ho Hall].
  unfold sessions_run in *. cbn [foldl]. apply IH; [done|].
  by apply sessions_after_with_mark.
Qed.

(** X6.  From its [start_call_tracking] until its end, whatever calls come
    in between, the stored record of a session is the record built at
    creation when no [mark_agent_started] was made for it, and otherwise that
    record with [agent_started] true and [agent_start_time] the clock reading
    of the last such call; no other field ever differs. *)
Theorem session_is_creation_record_with_last_mark w c0 i tp fp mid :
  reachable w →
  forallb (keeps i) mid = true →
  ∃ w1,
    run (Begin c0 i tp fp :: mid) w = Done tt w1
    ∧ _call_sessions w1 !! i
      = Some (match last_mark i mid with
              | Some t =>
                  <["agent_start_time" := VFloat t]>
                    (<["agent_started" := VBool true]>
                       (new_session (time_time c0) (datetime_now c0) tp fp))
              | None => new_session (time_time c0) (datetime_now c0) tp fp
              end).
Proof.
  intros Hw Hmid.
  destruct (run_wf (Begin c0 i tp fp :: mid) w (reachable_wf _ Hw))
    as (w1 & Hrun & Hs & _).
  exists w1. split; [done|]. rewrite Hs. unfold sessions_run.
  cbn [foldl sessions_after].
  fold (sessions_run mid
          (<[i:=new_session (time_time c0) (datetime_now c0) tp fp]>
             (_call_sessions w))).
  rewrite (sessions_run_with_mark i mid _ None
             (new_session (time_time c0) (datetime_now c0) tp fp) Hmid)
    by apply lookup_insert_eq.
  rewrite last_mark_foldl. by destruct (foldl (mark_step i) None mid).
Qed.

Lemma session_is_creation_record_with_last_mark_witness :
  reachable init
  ∧ forallb (keeps "c1") [MarkAgentStarted (Clock 101 1101) "c1";
                          MarkAgentStarted (Clock 102 1102) "c2";
                          MarkAgentStarted (Clock 103 1103) "c1";
                          GetActiveCalls (Clock 104 1104)] = true
  ∧ ∃ w1,
      run (Begin (Clock 100 1100) "c1" "+1555" "+1777"
             :: [MarkAgentStarted (Clock 101 1101) "c1";
                 MarkAgentStarted (Clock 102 1102) "c2";
                 MarkAgentStarted (Clock 103 1103) "c1";
                 GetActiveCalls (Clock 104 1104)]) init = Done tt w1
      ∧ _call_sessions w1 !! "c1"
        = Some (match last_mark "c1"
                        [MarkAgentStarted (Clock 101 1101) "c1";
                         MarkAgentStarted (Clock 102 1102) "c2";
                         MarkAgentStarted (Clock 103 1103) "c1";
                         GetActiveCalls (Clock 104 1104)] with
                | Some t =>
                    <["agent_start_time" := VFloat t]>
                      (<["agent_started" := VBool true]>
                         (new_session (time_time (Clock 100 1100))
                            (datetime_now (Clock 100 1100)) "+1555" "+1777"))
                | None =>
                    new_session (time_time (Clock 100 1100))
                      (datetime_now (Clock 100 1100)) "+1555" "+1777"
                end).
Proof.
  split; [apply reachable_init|]. split; [reflexivity|].
  apply (session_is_creation_record_with_last_mark init (Clock 100 1100)
           "c1" "+1555" "+1777").
  - apply reachable_init.
  - reflexivity.
Defined.

(** ** The keys of a record *)

Lemma dom_new_session t d tp fp : dom (new_session t d tp fp) = session_keys.
Proof.
  unfold new_session, session_keys. rewrite !dom_insert_L, dom_empty_L.
  cbn [list_to_set foldr]. set_solver.
Qed.

Lemma dom_marked t s : dom s = session_keys → dom (marked t s) = session_keys.
Proof.
  intros H. unfold marked. rewrite !dom_insert_L, H.
  unfold session_keys. cbn [list_to_set]. set_solver.
Qed.

Lemma dom_ended clk st s :
  dom s = session_keys → dom (ended clk st s) = session_keys.
Proof.
  intros H. unfold ended. rewrite !dom_insert_L, H.
  unfold session_keys. cbn [list_to_set]. set_solver.
Qed.

Lemma keys_sessions_after o m :
  map_Forall (λ _ s, dom s = session_keys) m →
  map_Forall (λ _ s, dom s = session_keys) (sessions_after o m).
Proof.
  intros Hm. destruct o as [clk i tp fp|clk i|clk i|clk i|clk];
    cbn [sessions_after]; try done.
  - apply map_Forall_insert_2; [apply dom_new_session | done].
  - rewrite alter_alt. destruct (m !! i) as [s|] eqn:Hi; [|done].
    apply map_Forall_insert_2; [|done]. apply dom_marked, (Hm i s Hi).
  - by apply map_Forall_delete.
Qed.

Lemma keys_sessions_run tr m :
  map_Forall (λ _ s, dom s = session_keys) m →
  map_Forall (λ _ s, dom s = session_keys) (sessions_run tr m).
Proof.
  revert m. induction tr as [|o tr IH]; intros m Hm; [done|].
  unfold sessions_run in *. cbn [foldl]. by apply IH, keys_sessions_after.
Qed.

(** X7.  After any sequence of calls on a new tracker, every stored record
    has exactly the nine keys of the dict literal of [start_call_tracking].
    For a stored id, the record returned by [end_call_tracking] has these
    nine keys and no other, and the copy returned by [get_call_status] has
    them plus [current_duration], which is never written into the stored
    record. *)
Theorem records_have_the_nine_keys tr :
  ∃ w,
    run tr init = Done tt w
    ∧ map_Forall (λ _ s, dom s = session_keys) (_call_sessions w)
    ∧ ∀ clk i,
        _call_sessions w !! i = None
        ∨ ∃ r w2 v,
            end_call_tracking clk i w = Done (Some r) w2
            ∧ dom r = session_keys
            ∧ get_call_status clk i w = Done (Some v) w
            ∧ dom v = {["current_duration"]} ∪ session_keys.
Proof.
  destruct (run_wf tr init wf_init) as (w & Hrun & Hs & Hwf).
  assert (Hkeys : map_Forall (λ _ s, dom s = session_keys) (_call_sessions w)).
  { rewrite Hs. apply keys_sessions_run. apply map_Forall_empty. }
  exists w. split; [done|]. split; [done|].
  intros clk i. destruct (_call_sessions w !! i) as [s|] eqn:Hi; [right|by left].
  eexists _, _, _.
  rewrite (end_call_tracking_live _ _ _ _ Hi (Hwf i s Hi)).
  rewrite (get_call_status_live _ _ _ _ Hi (Hwf i s Hi)).
  split; [done|]. split; [apply dom_ended, (Hkeys i s Hi)|].
  split; [done|]. unfold view. by rewrite dom_insert_L, (Hkeys i s Hi).
Qed.

(** ** The log *)

Lemma run_op_log o w :
  wf_world w →
  ∃ w' l,
    run_op o w = Done tt w'
    ∧ log w' = log w ++ l
    ∧ length l = (if logs o then 1 else 0)%nat.
Proof.
  intros Hwf. destruct o as [clk i tp fp|clk i|clk i|clk i|clk];
    cbn [run_op logs].
  - eexists _, _. rewrite start_call_tracking_spec. by split.
  - destruct (_call_sessions w !! i) as [s|] eqn:Hi.
    + eexists _, _.
      rewrite (mark_agent_started_live _ _ _ _ _ Hi
                 (wf_start_of s (Hwf i s Hi))). by split.
    + eexists _, _. rewrite (mark_agent_started_absent _ _ _ Hi). by split.
  - destruct (_call_sessions w !! i) as [s|] eqn:Hi.
    + eexists _, _. run_m.
      rewrite (end_call_tracking_live _ _ _ _ Hi (Hwf i s Hi)). by split.
    + eexists _, _. run_m. rewrite (end_call_tracking_absent _ _ _ Hi).
      by split.
  - exists w, []. run_m. destruct (_call_sessions w !! i) as [s|] eqn:Hi.
    + rewrite (get_call_status_live _ _ _ _ Hi (Hwf i s Hi)).
      by rewrite app_nil_r.
    + rewrite (get_call_status_absent _ _ _ Hi). by rewrite app_nil_r.
  - exists w, []. run_m. rewrite (get_active_calls_wf _ _ Hwf).
    by rewrite app_nil_r.
Qed.

(** X8.  The log only grows: a sequence of calls keeps every record already
    logged and appends exactly one record for each [start_call_tracking],
    [mark_agent_started] and [end_call_tracking] (found or not), and none for
    the two queries. *)
Theorem log_grows_by_one_per_tracking_call w tr :
  reachable w →
  ∃ w' l,
    run tr w = Done tt w'
    ∧ log w' = log w ++ l
    ∧ length l = length (List.filter logs tr).
Proof.
  intros Hw. pose proof (reachable_wf _ Hw) as Hwf. clear Hw.
  revert w Hwf. induction tr as [|o tr IH]; intros w Hwf.
  - exists w, []. by rewrite app_nil_r.
  - destruct (run_op_log o w Hwf) as (w1 & l1 & H1 & Hl1 & Hn1).
    destruct (run_op_wf o w Hwf) as (w1' & H1' & _ & Hwf1).
    rewrite H1 in H1'. injection H1' as <-.
    destruct (IH w1 Hwf1) as (w2 & l2 & H2 & Hl2 & Hn2).
    exists w2, (l1 ++ l2). rewrite run_cons, H1, H2. split; [done|].
    split; [by rewrite Hl2, Hl1, app_assoc|].
    rewrite length_app, Hn1, Hn2. cbn [List.filter].
    by destruct (logs o).
Qed.

Lemma log_grows_by_one_per_tracking_call_witness :
  reachable sample_world
  ∧ ∃ w' l,
      run [GetStatus (Clock 101 1101) "c1";
           MarkAgentStarted (Clock 102 1102) "c1";
           MarkAgentStarted (Clock 103 1103) "nobody";
           GetActiveCalls (Clock 104 1104);
           End (Clock 105 1105) "c1";
           End (Clock 106 1106) "c1"] sample_world = Done tt w'
      ∧ log w' = log sample_world ++ l
      ∧ length l
        = length (List.filter logs
                    [GetStatus (Clock 101 1101) "c1";
                     MarkAgentStarted (Clock 102 1102) "c1";
                     MarkAgentStarted (Clock 103 1103) "nobody";
                     GetActiveCalls (Clock 104 1104);
                     End (Clock 105 1105) "c1";
                     End (Clock 106 1106) "c1"]).
Proof.
  assert (Hw : reachable sample_world)
    by (exists [Begin (Clock 100 1100) "c1" "+1555" "+1777"]; reflexivity).
  split; [exact Hw|].
  apply (log_grows_by_one_per_tracking_call sample_world). exact Hw.
Defined.

(** ** The two queries agree *)

(** X9.  At the same clock reading, the entry [get_active_calls] returns for
    an id is the very view [get_call_status] returns for it, and an id has no
    entry exactly when [get_call_status] returns [None]. *)
Theorem get_active_calls_agrees_with_get_call_status w clk i :
  reachable w →
  ∃ calls,
    get_active_calls clk w = Done calls w
    ∧ get_call_status clk i w = Done (calls !! i) w.
Proof.
  intros Hw. pose proof (reachable_wf _ Hw) as Hwf.
  eexists. rewrite (get_active_calls_wf _ _ Hwf). split; [done|].
  rewrite lookup_fmap. destruct (_call_sessions w !! i) as [s|] eqn:Hi.
  - by rewrite (get_call_status_live _ _ _ _ Hi (Hwf i s Hi)).
  - by rewrite (get_call_status_absent _ _ _ Hi).
Qed.

Lemma get_active_calls_agrees_with_get_call_status_witness :
  reachable sample_world
  ∧ ∃ calls,
      get_active_calls (Clock 120 1120) sample_world = Done calls sample_world
      ∧ get_call_status (Clock 120 1120) "c1" sample_world
        = Done (calls !! "c1") sample_world.
Proof.
  assert (Hw : reachable sample_world)
    by (exists [Begin (Clock 100 1100) "c1" "+1555" "+1777"]; reflexivity).
  split; [exact Hw|].
  apply (get_active_calls_agrees_with_get_call_status sample_world). exact Hw.
Defined.

(** ** What the agent lines of the log say *)

(** X10.  The call setup duration logged by the first or any later
    [mark_agent_started] of a session is its own clock reading minus the one
    taken by the [start_call_tracking] that created the session, and from then
    on [get_call_status] shows [agent_started] true and that reading as
    [agent_start_time]. *)
Theorem mark_agent_started_logs_setup_duration w c0 c1 i tp fp mid :
  reachable w →
  forallb (keeps i) mid = true →
  ∃ w1 w2 v,
    run (Begin c0 i tp fp :: mid) w = Done tt w1
    ∧ mark_agent_started c1 i w1 = Done tt w2
    ∧ log w2 = log w1 ++
        [(INFO, AgentStarted i (datetime_now c1)
                  (time_time c1 - time_time c0))]
    ∧ (∀ j, j ≠ i → _call_sessions w2 !! j = _call_sessions w1 !! j)
    ∧ get_call_status c1 i w2 = Done (Some v) w2
    ∧ v !! "agent_started" = Some (VBool true)
    ∧ v !! "agent_start_time" = Some (VFloat (time_time c1))
    ∧ v !! "start_time" = Some (VFloat (time_time c0)).
Proof.
  intros Hw Hmid.
  destruct (run_begin_keeps w c0 i tp fp mid (reachable_wf _ Hw) Hmid)
    as (w1 & s & Hrun & Hwf1 & Hi & Hwfs & Hsame).
  assert (Hst : s !! "start_time" = Some (VFloat (time_time c0)))
    by by rewrite Hsame.
  eexists w1, _, _. split; [done|].
  rewrite (mark_agent_started_live _ _ _ _ _ Hi Hst). split; [done|].
  split; [done|].
  split; [intros j Hj; cbn [_call_sessions]; by rewrite lookup_insert_ne|].
  rewrite (get_call_status_live _ _ _ (marked (time_time c1) s));
    [| apply lookup_insert_eq | by apply wf_marked].
  split; [done|]. unfold view, marked. look.
  by repeat (split; [done|]).
Qed.

Lemma mark_agent_started_logs_setup_duration_witness :
  reachable init
  ∧ forallb (keeps "c1") [GetStatus (Clock 101 1101) "c1";
                          Begin (Clock 102 1102) "c2" "+1666" "+1777"] = true
  ∧ ∃ w1 w2 v,
      run (Begin (Clock 100 1100) "c1" "+1555" "+1777"
             :: [GetStatus (Clock 101 1101) "c1";
                 Begin (Clock 102 1102) "c2" "+1666" "+1777"]) init
      = Done tt w1
      ∧ mark_agent_started (Clock 103 1103) "c1" w1 = Done tt w2
      ∧ log w2 = log w1 ++
          [(INFO, AgentStarted "c1" (datetime_now (Clock 103 1103))
                    (time_time (Clock 103 1103) - time_time (Clock 100 1100)))]
      ∧ (∀ j, j ≠ "c1" → _call_sessions w2 !! j = _call_sessions w1 !! j)
      ∧ get_call_status (Clock 103 1103) "c1" w2 = Done (Some v) w2
      ∧ v !! "agent_started" = Some (VBool true)
      ∧ v !! "agent_start_time" = Some (VFloat (time_time (Clock 103 1103)))
      ∧ v !! "start_time" = Some (VFloat (time_time (Clock 100 1100))).
Proof.
  split; [apply reachable_init|]. split; [reflexivity|].
  apply (mark_agent_started_logs_setup_duration init (Clock 100 1100)
           (Clock 103 1103) "c1" "+1555" "+1777").
  - apply reachable_init.
  - reflexivity.
Defined.

(** X11.  The summary line of [end_call_tracking] after begin and agent mark
    tests the agent start time and the agent duration for truth, not for
    [None]: the line carries the agent duration [end - agent start] unless
    the agent start time or that difference is zero, in which case it takes
    the branch of a call whose agent never started, although the returned
    record has [agent_started] true.  In particular a call ended at the very
    clock reading of its agent mark is logged without agent duration. *)
Theorem end_call_tracking_summary_line w c0 c1 c2 i tp fp mid1 mid2 :
  reachable w →
  forallb (keeps i) mid1 = true →
  forallb (foreign i) mid2 = true →
  ∃ w1 r w2,
    run (Begin c0 i tp fp :: mid1 ++ MarkAgentStarted c1 i :: mid2) w
    = Done tt w1
    ∧ end_call_tracking c2 i w1 = Done (Some r) w2
    ∧ r !! "agent_started" = Some (VBool true)
    ∧ log w2 = log w1 ++
        [(INFO, CallEnded i (VStr fp) (VStr tp)
                  (datetime_now c0) (datetime_now c2)
                  (time_time c2 - time_time c0)
                  (if (time_time c1 =? 0) || (time_time c2 =? time_time c1)
                   then None
                   else Some (time_time c2 - time_time c1)))].
Proof.
  intros Hw Hmid1 Hmid2.
  destruct (run_begin_mark_foreign w c0 c1 i tp fp mid1 mid2
              (reachable_wf _ Hw) Hmid1 Hmid2)
    as (w1 & s0 & Hrun & Hwf1 & Hi & Hsame).
  pose proof (Hwf1 i _ Hi) as Hwfs.
  pose proof (same_call_trans _ _ _ Hsame (same_call_marked (time_time c1) s0))
    as Hsame'.
  eexists w1, _, _. split; [done|].
  rewrite (end_call_tracking_live _ _ _ _ Hi Hwfs). split; [done|].
  split; [rewrite ended_lookup by done; unfold marked; by look|].
  cbn [log]. do 3 f_equal.
  rewrite (same_call_start_of _ _ Hsame'), start_of_new_session.
  unfold field. rewrite !Hsame' by done. unfold marked. look.
  unfold agent_shown, new_session. look. simpl.
  destruct (time_time c1 =? 0); [done|]. cbn [negb andb orb].
  destruct (Z.eqb_spec (time_time c2) (time_time c1)) as [->|Hne].
  - by rewrite Z.sub_diag.
  - destruct (Z.eqb_spec (time_time c2 - time_time c1) 0); [lia|done].
Qed.

Lemma end_call_tracking_summary_line_witness :
  reachable init
  ∧ forallb (keeps "c1") [GetStatus (Clock 100 1100) "c1"] = true
  ∧ forallb (foreign "c1") [GetActiveCalls (Clock 101 1101)] = true
  ∧ ∃ w1 r w2,
      run (Begin (Clock 100 1100) "c1" "+1555" "+1777"
             :: [GetStatus (Clock 100 1100) "c1"]
             ++ MarkAgentStarted (Clock 101 1101) "c1"
             :: [GetActiveCalls (Clock 101 1101)]) init
      = Done tt w1
      ∧ end_call_tracking (Clock 101 1102) "c1" w1 = Done (Some r) w2
      ∧ r !! "agent_started" = Some (VBool true)
      ∧ log w2 = log w1 ++
          [(INFO, CallEnded "c1" (VStr "+1777") (VStr "+1555")
                    (datetime_now (Clock 100 1100))
                    (datetime_now (Clock 101 1102))
                    (time_time (Clock 101 1102) - time_time (Clock 100 1100))
                    (if (time_time (Clock 101 1101) =? 0)
                        || (time_time (Clock 101 1102)
                            =? time_time (Clock 101 1101))
                     then None
                     else Some (time_time (Clock 101 1102)
                                - time_time (Clock 101 1101))))].
Proof.
  split; [apply reachable_init|]. split; [reflexivity|]. split; [reflexivity|].
  apply (end_call_tracking_summary_line init (Clock 100 1100)
           (Clock 101 1101) (Clock 101 1102) "c1" "+1555" "+1777").
  - apply reachable_init.
  - reflexivity.
  - reflexivity.
Defined.

(** ** Timestamps under a clock that is not set back *)

Lemma timed_weaken t t' m : t ≤ t' → timed t m → timed t' m.
Proof.
  intros Hle Hm i s Hi. destruct (Hm i s Hi) as [Hs Ha].
  split; [lia|]. intros a Hlook. specialize (Ha a Hlook). lia.
Qed.

Lemma timed_sessions_after t o m :
  t ≤ op_time o → timed t m → timed (op_time o) (sessions_after o m).
Proof.
  intros Hle Hm. pose proof (timed_weaken _ _ m Hle Hm) as Hm'.
  destruct o as [clk i tp fp|clk i|clk i|clk i|clk];
    cbn [sessions_after op_time] in *; try done.
  - apply map_Forall_insert_2; [|done].
    rewrite start_of_new_session. split; [lia|]. intros a Ha.
    unfold new_session in Ha. revert Ha. by look.
  - rewrite alter_alt. destruct (m !! i) as [s|] eqn:Hi; [|done].
    apply map_Forall_insert_2; [|done].
    destruct (Hm i s Hi) as [Hs _].
    rewrite (same_call_start_of _ _ (same_call_marked (time_time clk) s)).
    split; [lia|]. intros a Ha. unfold marked in Ha. revert Ha. look.
    intros [= <-]. lia.
  - by apply map_Forall_delete.
Qed.

Lemma timed_sessions_run t tr m :
  clock_nondecreasing t tr = true →
  timed t m →
  timed (last_time t tr) (sessions_run tr m).
Proof.
  revert t m. induction tr as [|o tr IH]; intros t m Hc Hm; [done|].
  cbn [clock_nondecreasing] in Hc. apply andb_true_iff in Hc as [Hle Hc].
  apply Z.leb_le in Hle. unfold sessions_run, last_time in *. cbn [foldl].
  apply IH; [done|]. by apply (timed_sessions_after t).
Qed.

Lemma clock_nondecreasing_app t tr1 tr2 :
  clock_nondecreasing t (tr1 ++ tr2)
  = clock_nondecreasing t tr1 && clock_nondecreasing (last_time t tr1) tr2.
Proof.
  revert t. induction tr1 as [|o tr1 IH]; intros t; [done|].
  cbn [app clock_nondecreasing]. unfold last_time in *. cbn [foldl].
  by rewrite IH, andb_assoc.
Qed.

(** X12.  If the clock readings taken by the calls never go back, the record
    returned by [end_call_tracking] has [start_time <= end_time], a
    non-negative [duration], and, when the agent was marked,
    [start_time <= agent_start_time <= end_time]; this holds in whatever
    order the calls were made. *)
Theorem timestamps_are_ordered tr c i t0 :
  clock_nondecreasing t0 (tr ++ [End c i]) = true →
  ∃ w,
    run tr init = Done tt w
    ∧ (_call_sessions w !! i = None
       ∨ ∃ r w2 st d,
           end_call_tracking c i w = Done (Some r) w2
           ∧ r !! "start_time" = Some (VFloat st)
           ∧ r !! "end_time" = Some (VFloat (time_time c))
           ∧ r !! "duration" = Some (VFloat d)
           ∧ st ≤ time_time c
           ∧ 0 ≤ d
           ∧ (r !! "agent_start_time" = Some VNone
              ∨ ∃ a, r !! "agent_start_time" = Some (VFloat a)
                     ∧ st ≤ a ≤ time_time c)).
Proof.
  intros Hc. rewrite clock_nondecreasing_app in Hc.
  apply andb_true_iff in Hc as [Hc Hlast].
  cbn [clock_nondecreasing op_time] in Hlast.
  rewrite andb_true_r in Hlast. apply Z.leb_le in Hlast.
  destruct (run_wf tr init wf_init) as (w & Hrun & Hs & Hwf).
  assert (Ht : timed (last_time t0 tr) (_call_sessions w)).
  { rewrite Hs. apply timed_sessions_run; [done|]. apply map_Forall_empty. }
  exists w. split; [done|].
  destruct (_call_sessions w !! i) as [s|] eqn:Hi; [right|by left].
  pose proof (Hwf i s Hi) as Hwfs. destruct (Ht i s Hi) as [Hst Hag].
  eexists _, _, (start_of s), _.
  rewrite (end_call_tracking_live _ _ _ _ Hi Hwfs). split; [done|].
  split; [rewrite ended_lookup by done; by apply wf_start_of|].
  split; [unfold ended; by look|]. split; [unfold ended; by look|].
  split; [lia|]. split; [lia|].
  rewrite ended_lookup by done.
  destruct Hwfs as (_ & _ & _ & _ & _ & [[_ Hn] | [_ [a Ha]]]); [by left|].
  right. exists a. split; [done|]. specialize (Hag a Ha). lia.
Qed.

Lemma timestamps_are_ordered_witness :
  clock_nondecreasing 0
    ([Begin (Clock 100 1100) "c1" "+1555" "+1777";
      MarkAgentStarted (Clock 100 1100) "c1";
      Begin (Clock 104 1104) "c2" "+1666" "+1777";
      MarkAgentStarted (Clock 107 1107) "c1"]
     ++ [End (Clock 109 1109) "c1"]) = true
  ∧ ∃ w,
      run [Begin (Clock 100 1100) "c1" "+1555" "+1777";
           MarkAgentStarted (Clock 100 1100) "c1";
           Begin (Clock 104 1104) "c2" "+1666" "+1777";
           MarkAgentStarted (Clock 107 1107) "c1"] init = Done tt w
      ∧ (_call_sessions w !! "c1" = None
         ∨ ∃ r w2 st d,
             end_call_tracking (Clock 109 1109) "c1" w = Done (Some r) w2
             ∧ r !! "start_time" = Some (VFloat st)
             ∧ r !! "end_time" = Some (VFloat (time_time (Clock 109 1109)))
             ∧ r !! "duration" = Some (VFloat d)
             ∧ st ≤ time_time (Clock 109 1109)
             ∧ 0 ≤ d
             ∧ (r !! "agent_start_time" = Some VNone
                ∨ ∃ a, r !! "agent_start_time" = Some (VFloat a)
                       ∧ st ≤ a ≤ time_time (Clock 109 1109))).
Proof.
  split; [reflexivity|].
  apply (timestamps_are_ordered
           [Begin (Clock 100 1100) "c1" "+1555" "+1777";
            MarkAgentStarted (Clock 100 1100) "c1";
            Begin (Clock 104 1104) "c2" "+1666" "+1777";
            MarkAgentStarted (Clock 107 1107) "c1"]
           (Clock 109 1109) "c1" 0).
  reflexivity.
Defined.

(** ** [check_active_calls] *)

Lemma print_calls_views t (items : list (string * gmap string value)) w :
  Forall (λ p, wf_session p.2) items →
  print_calls (prod_map id (view t) <$> items) w
  = Done (flat_map (λ p, call_block t p.1 p.2) items) w.
Proof.
  intros Hall.
  induction Hall as [|[k s] items Hs _ IH]; [done|].
  destruct Hs as ([st Hst] & _ & [tp Htp] & [fp Hfp] & _ & Hag).
  assert (Has : ∃ b, s !! "agent_started" = Some (VBool b)).
  { destruct Hag as [[H _] | [H _]]; eauto. }
  destruct Has as [b Hb].
  rewrite fmap_cons. cbn [prod_map fst snd id print_calls flat_map] in *.
  unfold mbind at 1 2 3 4 5 6, M_bind, getitem, view at 1 2 3 4.
  look. rewrite Hfp, Htp, Hb. cbn -[print_calls]. rewrite IH.
  unfold call_block, field, start_of. by rewrite Hfp, Htp, Hb, Hst.
Qed.

(** X13.  On a tracker reached by any sequence of calls,
    [check_active_calls] of the example script never raises and changes
    nothing: every view it iterates over has the four keys it reads and a
    [current_duration] that can be formatted.  It prints the number of stored
    sessions first and then five lines for each of them, showing the
    session's phone numbers, its [agent_started] flag and the time elapsed
    since its start. *)
Theorem check_active_calls_prints_every_session w clk :
  reachable w →
  ∃ body,
    check_active_calls clk w
    = Done (ActiveCount (size (_call_sessions w)) :: body) w
    ∧ length body = (5 * size (_call_sessions w))%nat
    ∧ ∀ i s, _call_sessions w !! i = Some s →
        ∃ before after,
          body = before ++ call_block (time_time clk) i s ++ after.
Proof.
  intros Hw. pose proof (reachable_wf _ Hw) as Hwf.
  assert (Hall : Forall (λ p : string * gmap string value, wf_session p.2)
                   (map_to_list (_call_sessions w))).
  { apply Forall_forall. intros [k s] Hin.
    apply elem_of_map_to_list in Hin. by apply (Hwf k s). }
  exists (flat_map (λ p, call_block (time_time clk) p.1 p.2)
            (map_to_list (_call_sessions w))).
  split; [|split].
  - unfold check_active_calls, mbind, M_bind, mret, M_ret.
    rewrite (get_active_calls_wf _ _ Hwf).
    rewrite map_to_list_fmap, (print_calls_views _ _ _ Hall).
    rewrite map_size_fmap. reflexivity.
  - rewrite <- length_map_to_list. clear Hall.
    induction (map_to_list (_call_sessions w)) as [|p l IH]; [done|].
    cbn [flat_map]. rewrite length_app, IH. cbn [call_block length]. lia.
  - intros i s Hi. apply elem_of_map_to_list in Hi.
    apply list_elem_of_split in Hi as (l1 & l2 & ->).
    exists (flat_map (λ p, call_block (time_time clk) p.1 p.2) l1),
           (flat_map (λ p, call_block (time_time clk) p.1 p.2) l2).
    by rewrite flat_map_app.
Qed.

Lemma check_active_calls_prints_every_session_witness :
  reachable sample_world
  ∧ ∃ body,
      check_active_calls (Clock 125 1125) sample_world
      = Done (ActiveCount (size (_call_sessions sample_world)) :: body)
          sample_world
      ∧ length body = (5 * size (_call_sessions sample_world))%nat
      ∧ ∀ i s, _call_sessions sample_world !! i = Some s →
          ∃ before after,
            body = before ++ call_block (time_time (Clock 125 1125)) i s
                   ++ after.
Proof.
  assert (Hw : reachable sample_world)
    by (exists [Begin (Clock 100 1100) "c1" "+1555" "+1777"]; reflexivity).
  split; [exact Hw|].
  apply (check_active_calls_prints_every_session sample_world). exact Hw.
Defined.
